(** * excel_to_pdf: spreadsheet rows to a table of Code128 barcodes

  A shallow embedding of [src/excel_to_pdf.py].  The two functions of the
  script, [generate_code128_barcode] and [excel_to_barcode_pdf], are
  written as Rocq functions.  The libraries the script calls (pandas'
  [read_excel], python-barcode's Code128 writer, ReportLab's document
  builder) are not part of the repository: they are variables of the
  section [Script] and every theorem holds for all of them.

  Text is [string]: a sequence of 8-bit characters, read as the code
  points U+0000 to U+00FF of a Python [str]. *)

From Stdlib Require Import String Ascii List ZArith Bool Arith Lia Permutation.
From Stdlib Require DecimalString.
Import ListNotations.

Local Open Scope string_scope.
Local Open Scope list_scope.

(** ** The [str] methods used by the script *)

Module Str.

(** [str.isspace] on one character, for the code points below 256:
    TAB to CR, FS to US, SPACE, NEL and NO-BREAK SPACE. *)
Definition isspace (c : ascii) : bool :=
  let n := nat_of_ascii c in
  (((9 <=? n) && (n <=? 13)) || ((28 <=? n) && (n <=? 32))
   || (n =? 133) || (n =? 160))%nat.

Fixpoint lstrip (s : string) : string :=
  match s with
  | EmptyString => EmptyString
  | String c s' => if isspace c then lstrip s' else s
  end.

Fixpoint rstrip (s : string) : string :=
  match s with
  | EmptyString => EmptyString
  | String c s' =>
      match rstrip s' with
      | EmptyString => if isspace c then EmptyString else String c EmptyString
      | r => String c r
      end
  end.

(** [s.strip()] with no argument. *)
Definition strip (s : string) : string := rstrip (lstrip s).

(** [s.replace(old, new)] for a pattern [old] of one character. *)
Fixpoint replace (old : ascii) (new : string) (s : string) : string :=
  match s with
  | EmptyString => EmptyString
  | String c s' =>
      if Ascii.eqb c old then (new ++ replace old new s')%string
      else String c (replace old new s')
  end.

(** [str.lower] on one character: A to Z, and the upper-case letters of
    the Latin-1 block (U+00C0 to U+00DE without the multiplication
    sign), move up by 32. *)
Definition lower_char (c : ascii) : ascii :=
  let n := nat_of_ascii c in
  if (((65 <=? n) && (n <=? 90))
      || ((192 <=? n) && (n <=? 222) && negb (n =? 215)))%nat
  then ascii_of_nat (n + 32) else c.

Fixpoint lower (s : string) : string :=
  match s with
  | EmptyString => EmptyString
  | String c s' => String (lower_char c) (lower s')
  end.

(** [str(i)] for an integer. *)
Definition of_int (i : Z) : string :=
  DecimalString.NilZero.string_of_int (Z.to_int i).

Fixpoint all (p : ascii -> bool) (s : string) : bool :=
  match s with
  | EmptyString => true
  | String c s' => p c && all p s'
  end.

Definition isalnum_ascii (c : ascii) : bool :=
  let n := nat_of_ascii c in
  (((48 <=? n) && (n <=? 57)) || ((65 <=? n) && (n <=? 90))
   || ((97 <=? n) && (n <=? 122)))%nat.

End Str.

(** ** Values the script produces *)

(** Exceptions, each with the text [str(exc)] gives.  [Exception] stands for
    whatever a library raises.  The text of the schema error of line 88 is
    kept without the pictograph and the space it starts with, which lie
    outside the character range of [string]. *)
Inductive exn : Type :=
| Exception (msg : string)
| FileNotFoundError (msg : string)
| ValueError (msg : string).

Definition str_exn (e : exn) : string :=
  match e with
  | Exception m | FileNotFoundError m | ValueError m => m
  end.

(** ReportLab's [Image(buffer, width=..., height=...)]: the handle keeps the
    stream and the size it was asked for. *)
Record Image : Type := mkImage {
  img_buffer : list Byte.byte;
  img_width : Z;
  img_height : Z
}.

(** A cell of the table is a [str] or an [Image]; the placeholder the
    encoder returns is the empty [str]. *)
Inductive cell : Type :=
| Text (s : string)
| Picture (i : Image).

Definition Empty : cell := Text "".

(** Lines printed to standard output.  The two lines of the script start
  with a pictograph outside the character range of [string], so a line is
  kept by its parts:
  - [Warning value exc]: "Warning: Failed to generate barcode for
    'value' -> exc" (line 48);
  - [Created path]: "PDF successfully created: path" (line 128). *)
Inductive line : Type :=
| Warning (value : string) (exc : exn)
| Created (path : string).

(** What a run does besides returning: a call of the Code128 writer on
  [data] (lines 41-42), or a line printed. *)
Inductive event : Type :=
| Code128 (data : string)
| Print (l : line).

(** ** Computations that log events *)

Definition W (A : Type) : Type := (A * list event)%type.

Definition ret {A} (a : A) : W A := (a, []).

Definition bind {A B} (m : W A) (k : A -> W B) : W B :=
  let '(a, t1) := m in
  let '(b, t2) := k a in
  (b, t1 ++ t2).

Definition tell (e : event) : W unit := (tt, [e]).

Notation "x <- m ;; k" := (bind m (fun x => k))
  (at level 61, m at next level, right associativity).
Notation "m ;;; k" := (bind m (fun _ => k))
  (at level 61, right associativity).

(** [for x in xs: ys.append(f(x))] *)
Fixpoint for_each {A B} (f : A -> W B) (xs : list A) : W (list B) :=
  match xs with
  | [] => ret []
  | x :: xs' =>
      y <- f x ;;
      ys <- for_each f xs' ;;
      ret (y :: ys)
  end.

Definition default_width : Z := 80.
Definition default_height : Z := 25.

(** ** The table read from the spreadsheet *)

(** A row as [iterrows] yields it: the cells by column name, in column
    order. *)
Definition Series (A : Type) : Type := list (string * A).

(** A [DataFrame]: the column names and the rows. *)
Record DataFrame (A : Type) : Type := mkFrame {
  columns : list string;
  rows : list (Series A)
}.

Arguments mkFrame {A} _ _.
Arguments columns {A} _.
Arguments rows {A} _.

(** A cell as [read_excel] delivers it: missing, or a value known by the
    text [str] gives for it. *)
Inductive raw : Type :=
| NaN
| Value (text : string).

Fixpoint find {A} (row : Series A) (key : string) : option A :=
  match row with
  | [] => None
  | (k, v) :: row' => if k =? key then Some v else find row' key
  end.

(** [row.get(key, default)] *)
Definition get {A} (row : Series A) (key : string) (default : A) : A :=
  match find row key with
  | Some v => v
  | None => default
  end.

(** [name in df.columns] *)
Definition contains (cols : list string) (name : string) : bool :=
  existsb (String.eqb name) cols.

(** The text of a cell once missing values are blank. *)
Definition str_of_raw (c : raw) : string :=
  match c with
  | NaN => ""
  | Value s => s
  end.

(** [df.fillna("").astype(str)] *)
Definition fillna_astype_str (df : DataFrame raw) : DataFrame string :=
  mkFrame (columns df)
          (map (map (fun kv => (fst kv, str_of_raw (snd kv)))) (rows df)).

(** [df.drop(columns=[name])] *)
Definition drop {A} (name : string) (df : DataFrame A) : DataFrame A :=
  mkFrame (filter (fun c => negb (c =? name)) (columns df))
          (map (filter (fun kv => negb (fst kv =? name))) (rows df)).

(** [df[cols]]: the columns [cols] in that order; [KeyError] when one of
    them is not a column of [df]. *)
Definition getitem {A} (cols : list string) (df : DataFrame A)
  : exn + DataFrame A :=
  if forallb (contains (columns df)) cols then
    inr (mkFrame cols
           (map (fun row =>
                   flat_map (fun c => match find row c with
                                      | Some v => [(c, v)]
                                      | None => []
                                      end) cols)
                (rows df)))
  else inl (Exception "KeyError").

(** [range(a, b)] *)
Definition range (a b : Z) : list Z :=
  map (fun k => (a + Z.of_nat k)%Z) (seq 0 (Z.to_nat (b - a))).

(** Every row has one cell per column: what a [DataFrame] is. *)
Definition rectangular {A} (df : DataFrame A) : Prop :=
  Forall (fun row => map fst row = columns df) (rows df).

(** Overwrite the cells of column [name] by [g]. *)
Definition set_column {A} (name : string) (g : A -> A) (df : DataFrame A)
  : DataFrame A :=
  mkFrame (columns df)
          (map (map (fun kv => if fst kv =? name then (fst kv, g (snd kv))
                               else kv))
               (rows df)).

(** ** The script *)

Definition expected_cols : list string :=
  [ "S.No."; "Applicant No"; "Artisan Name";
    "Label Number 1"; "Label Number 2";
    "Label Number 3"; "Label Number 4" ].

(** Line 93 *)
Definition barcode_headers : list string :=
  map (fun i => ("Label " ++ Str.of_int i ++ " Barcode")%string) (range 1 5).

(** What a run of [excel_to_barcode_pdf] leaves: the value returned or the
    exception raised, the events in order, and the disk. *)
Record outcome (disk : Type) : Type := mkOutcome {
  result : exn + unit;
  trace : list event;
  final : disk
}.

Arguments mkOutcome {disk} _ _ _.
Arguments result {disk} _.
Arguments trace {disk} _.
Arguments final {disk} _.

(** Sample libraries and tables, used to run the script below. *)
Definition code128_ok (data : string) : exn + list Byte.byte :=
  inr (map byte_of_ascii (list_ascii_of_string data)).

Definition code128_ascii (data : string) : exn + list Byte.byte :=
  if Str.all (fun c => (nat_of_ascii c <? 128)%nat) data
  then inr (map byte_of_ascii (list_ascii_of_string data))
  else inl (Exception "character not in Code128").

Definition labels_frame : DataFrame raw :=
  mkFrame [ "S.No."; "Artisan Name"; "Label Number 1" ]
    [ [ ("S.No.", Value "1"); ("Artisan Name", Value "Alice");
        ("Label Number 1", Value "AB123") ];
      [ ("S.No.", Value "2"); ("Artisan Name", Value "Bob");
        ("Label Number 1", NaN) ] ].

Definition shuffled_frame : DataFrame raw :=
  mkFrame [ "Label Number 1"; "S.No."; "Artisan Name" ]
    [ [ ("Label Number 1", Value "AB123"); ("S.No.", Value "1");
        ("Artisan Name", Value "Alice") ] ].

Definition unrelated_frame : DataFrame raw :=
  mkFrame [ "Name"; "Label Number 5" ]
    [ [ ("Name", Value "Alice"); ("Label Number 5", Value "X1") ] ].

(** A label with a character outside ASCII (U+00E9). *)
Definition accented_value : string := String (ascii_of_nat 233) "1".

Definition one_file_disk (path : string) : exn + DataFrame raw :=
  if path =? "labels.xlsx" then inr labels_frame
  else if path =? "other.xlsx" then inr unrelated_frame
  else inl (Exception "No such file or directory").

(** A disk as the list of PDF files written, newest first; reading a
    spreadsheet does not depend on it. *)
Definition files : Type := list (string * list (list cell)).

Definition read_sample (path : string) (_ : files) : exn + DataFrame raw :=
  one_file_disk path.

Definition build_sample (path : string) (cells : list (list cell))
    (d : files) : option exn * files :=
  (None, (path, cells) :: d).

Section Script.

(** python-barcode: [barcode.get("code128", data, writer=ImageWriter())]
    followed by [code.write(buffer, options=...)]; the bytes written to
    the buffer, or the exception raised. *)
Variable code128 : string -> exn + list Byte.byte.

(** The file system. *)
Variable disk : Type.

(** pandas: [pd.read_excel(path)], the table or the exception raised. *)
Variable read_excel : string -> disk -> exn + DataFrame raw.

(** ReportLab, lines 111-126: [SimpleDocTemplate(path,
    pagesize=landscape(A3))], [Table(table_data, repeatRows=1)] with the
    fixed style, and [pdf.build([table])]; the exception raised, if any,
    and the disk afterwards. *)
Variable build : string -> list (list cell) -> disk -> option exn * disk.

(** Line 34 *)
Definition cleaned_of (value : string) : string :=
  Str.replace " " "" (Str.strip value).

(** Line 36: [not cleaned or cleaned.lower() == "nan"] *)
Definition no_data (cleaned : string) : bool :=
  (cleaned =? "") || (Str.lower cleaned =? "nan").

(** Lines 16-49.  [value] is the text [str(value)]. *)
Definition generate_code128_barcode
    (value : string) (width height : Z) : W cell :=
  let cleaned := cleaned_of value in
  if no_data cleaned then ret (Text "")
  else
    tell (Code128 cleaned) ;;;
    match code128 cleaned with
    | inr png => ret (Picture (mkImage png width height))
    | inl exc =>
        tell (Print (Warning value exc)) ;;;
        ret (Text "")
    end.

(** Lines 73-90: the columns kept, and the table cut down to them. *)
Definition select_columns (table : DataFrame raw)
  : exn + (list string * DataFrame string) :=
  let df := fillna_astype_str table in
  let df := if contains (columns df) "Label Number 5"
            then drop "Label Number 5" df else df in
  let available_cols := filter (contains (columns df)) expected_cols in
  match available_cols with
  | [] => inl (ValueError "No expected columns found in Excel file.")
  | _ :: _ =>
      match getitem available_cols df with
      | inl exc => inl exc
      | inr df => inr (available_cols, df)
      end
  end.

(** Lines 100-106: the cells of one row. *)
Definition row_cells (available_cols : list string) (row : Series string)
  : W (list cell) :=
  let texts := map (fun col => Text (get row col "")) available_cols in
  images <- for_each
              (fun i =>
                 let col := ("Label Number " ++ Str.of_int i)%string in
                 generate_code128_barcode (get row col "")
                   default_width default_height)
              (range 1 5) ;;
  ret (texts ++ images).

(** Lines 93-108 *)
Definition table_data (available_cols : list string) (df : DataFrame string)
  : W (list (list cell)) :=
  let header_row := available_cols ++ barcode_headers in
  body <- for_each (row_cells available_cols) (rows df) ;;
  ret (map Text header_row :: body).

(** Lines 73-108: from the table read to the table handed to ReportLab. *)
Definition assemble (table : DataFrame raw) : exn + W (list (list cell)) :=
  match select_columns table with
  | inl exc => inl exc
  | inr (available_cols, df) => inr (table_data available_cols df)
  end.

(** Lines 52-128 *)
Definition excel_to_barcode_pdf (input_excel output_pdf : string) (d : disk)
  : outcome disk :=
  match read_excel input_excel d with
  | inl exc =>
      mkOutcome
        (inl (FileNotFoundError
                ("Unable to read Excel file '" ++ input_excel ++ "': "
                 ++ str_exn exc)%string))
        [] d
  | inr table =>
      match assemble table with
      | inl exc => mkOutcome (inl exc) [] d
      | inr (cells, events) =>
          match build output_pdf cells d with
          | (Some exc, d') => mkOutcome (inl exc) events d'
          | (None, d') =>
              mkOutcome (inr tt) (events ++ [Print (Created output_pdf)]) d'
          end
      end
  end.


(** ** The table the specification describes *)

(** At least one expected column is present. *)
Definition has_expected (table : DataFrame raw) : Prop :=
  exists c, In c expected_cols /\ In c (columns table).

(** The expected names that are columns of the table, in the fixed order. *)
Definition spec_selection (table : DataFrame raw) : list string :=
  filter (fun c => contains (columns table) c)
    [ "S.No."; "Applicant No"; "Artisan Name";
      "Label Number 1"; "Label Number 2";
      "Label Number 3"; "Label Number 4" ].

Definition spec_header (table : DataFrame raw) : list string :=
  spec_selection table
  ++ [ "Label 1 Barcode"; "Label 2 Barcode";
       "Label 3 Barcode"; "Label 4 Barcode" ].

(** The text of a field of a row of the spreadsheet; blank when the row has
    no such field. *)
Definition spec_field (row : Series raw) (col : string) : string :=
  str_of_raw (get row col NaN).

(** One output row: the selected fields as text, then the encoder on the
    four label fields at 80 by 25. *)
Definition spec_row (table : DataFrame raw) (row : Series raw)
  : W (list cell) :=
  images <- for_each
              (fun col => generate_code128_barcode (spec_field row col) 80 25)
              [ "Label Number 1"; "Label Number 2";
                "Label Number 3"; "Label Number 4" ] ;;
  ret (map (fun col => Text (spec_field row col)) (spec_selection table)
       ++ images).

Definition spec_table (table : DataFrame raw) : W (list (list cell)) :=
  body <- for_each (spec_row table) (rows table) ;;
  ret (map Text (spec_header table) :: body).

(** The row of the script's [df] after line 90 that comes from [row]. *)
Definition kept_row (table : DataFrame raw) (row : Series raw)
  : Series string :=
  let filled := map (fun kv => (fst kv, str_of_raw (snd kv))) row in
  let dropped := if contains (columns table) "Label Number 5"
                 then filter (fun kv => negb (fst kv =? "Label Number 5"))
                        filled
                 else filled in
  flat_map (fun c => match find dropped c with
                     | Some v => [(c, v)]
                     | None => []
                     end) (spec_selection table).

End Script.

(** ** The program entry, lines 131-139 *)

(** A line [main] prints: its own not-found line (line 137, by its path),
    or a line or call of the script it runs. *)
Inductive main_line : Type :=
| NotFound (path : string)
| Script (e : event).

Section Main.

Variable code128 : string -> exn + list Byte.byte.
Variable disk : Type.
Variable read_excel : string -> disk -> exn + DataFrame raw.
Variable build : string -> list (list cell) -> disk -> option exn * disk.

(** [os.path.exists(path)] *)
Variable path_exists : string -> disk -> bool.

Definition main (d : disk) : (exn + unit) * list main_line * disk :=
  let input_excel := "path/to/input_labels.xlsx" in
  let output_pdf := "output_labels.pdf" in
  if negb (path_exists input_excel d) then
    (inr tt, [NotFound input_excel], d)
  else
    let o := excel_to_barcode_pdf code128 disk read_excel build
               input_excel output_pdf d in
    (result o, map Script (trace o), final o).

End Main.

(** ** Measures used to state what the script keeps *)

(** The last character is not white space. *)
Fixpoint ends_clean (s : string) : bool :=
  match s with
  | EmptyString => true
  | String c EmptyString => negb (Str.isspace c)
  | String _ s' => ends_clean s'
  end.

Definition no_space (s : string) : bool :=
  Str.all (fun c => negb (Ascii.eqb c " ")) s.

Definition is_picture (c : cell) : bool :=
  match c with
  | Picture _ => true
  | Text _ => false
  end.

Definition is_code128 (e : event) : bool :=
  match e with
  | Code128 _ => true
  | Print _ => false
  end.

Definition is_warning (e : event) : bool :=
  match e with
  | Print (Warning _ _) => true
  | _ => false
  end.

Definition count {A} (p : A -> bool) (l : list A) : nat :=
  length (filter p l).

(** A barcode cell: the empty placeholder, or an image of the default
    size. *)
Definition barcode_cell (c : cell) : Prop :=
  match c with
  | Text s => s = ""
  | Picture i => img_width i = 80%Z /\ img_height i = 25%Z
  end.

(** Sample tables for the facts below: no data rows, and the columns of
    [labels_frame] in another order with one more column. *)
Definition empty_frame : DataFrame raw :=
  mkFrame [ "Applicant No"; "Label Number 2" ] [].

Definition reordered_frame : DataFrame raw :=
  mkFrame [ "Label Number 1"; "S.No."; "Artisan Name" ]
    [ [ ("Label Number 1", Value "AB123"); ("S.No.", Value "1");
        ("Artisan Name", Value "Alice") ];
      [ ("Label Number 1", NaN); ("S.No.", Value "2");
        ("Artisan Name", Value "Bob") ] ].

Definition remarks_frame : DataFrame raw :=
  mkFrame [ "S.No."; "Remarks"; "Artisan Name"; "Label Number 1" ]
    [ [ ("S.No.", Value "1"); ("Remarks", Value "urgent");
        ("Artisan Name", Value "Alice");
        ("Label Number 1", Value "AB123") ];
      [ ("S.No.", Value "2"); ("Remarks", NaN);
        ("Artisan Name", Value "Bob"); ("Label Number 1", NaN) ] ].

Definition exists_sample (path : string) (_ : files) : bool :=
  match one_file_disk path with
  | inr _ => true
  | inl _ => false
  end.

(** ** The encoder with the state of the Code128 writer made explicit *)

(** What a call of the encoder can reach besides its arguments: the lines
    printed so far, and the state of everything the Code128 writer may
    read or change (its modules, its fonts, the files). *)
Record world (lib_state : Type) : Type := mkWorld {
  stdout : list line;
  lib : lib_state
}.

Arguments mkWorld {lib_state} _ _.
Arguments stdout {lib_state} _.
Arguments lib {lib_state} _.

Section EncoderState.

Variable lib_state : Type.

(** python-barcode as a call that reads and changes its state: the bytes
    written or the exception raised, and the state afterwards. *)
Variable code128_io :
  string -> lib_state -> (exn + list Byte.byte) * lib_state.

(** Lines 16-49 again.  The buffer is new at each call (line 40), the
    writer appends to it (line 42) and the image reads it from its start
    (lines 43-45); a warning is one more line printed (line 48). *)
Definition generate_code128_barcode_io
    (value : string) (width height : Z) (w : world lib_state)
  : cell * world lib_state :=
  let cleaned := cleaned_of value in
  if no_data cleaned then (Text "", w)
  else
    let buffer : list Byte.byte := [] in
    match code128_io cleaned (lib w) with
    | (inr png, l) =>
        let buffer := buffer ++ png in
        (Picture (mkImage buffer width height), mkWorld (stdout w) l)
    | (inl exc, l) =>
        (Text "", mkWorld (stdout w ++ [Warning value exc]) l)
    end.

End EncoderState.

(** A writer that counts its calls and encodes ASCII text only. *)
Definition code128_counting (data : string) (calls : nat)
  : (exn + list Byte.byte) * nat :=
  (code128_ascii data, S calls).

(** A table with a label the sample writer cannot encode. *)
Definition accented_frame : DataFrame raw :=
  mkFrame [ "S.No."; "Label Number 1"; "Label Number 2" ]
    [ [ ("S.No.", Value "1"); ("Label Number 1", Value accented_value);
        ("Label Number 2", Value "CD45") ];
      [ ("S.No.", Value "2"); ("Label Number 1", Value "EF67");
        ("Label Number 2", NaN) ] ].

(** ** Facts about the [str] methods *)

Lemma lstrip_empty (s : string) :
  Str.lstrip s = "" <-> Str.all Str.isspace s = true.
Proof.
  induction s as [|c s IH]; simpl.
  - split; reflexivity.
  - destruct (Str.isspace c); simpl.
    + exact IH.
    + split; discriminate.
Qed.

Lemma lstrip_head (s : string) (c : ascii) (t : string) :
  Str.lstrip s = String c t -> Str.isspace c = false.
Proof.
  induction s as [|a s IH]; simpl; [discriminate|].
  destruct (Str.isspace a) eqn:Ha; [exact IH|].
  intros E. injection E as -> _. exact Ha.
Qed.

Lemma rstrip_head (c : ascii) (t : string) :
  Str.isspace c = false -> exists r, Str.rstrip (String c t) = String c r.
Proof.
  intros Hc. simpl. destruct (Str.rstrip t) as [|a r].
  - rewrite Hc. now exists "".
  - now exists (String a r).
Qed.

Lemma replace_space_head (c : ascii) (t : string) :
  Str.isspace c = false ->
  exists r, Str.replace " " "" (String c t) = String c r.
Proof.
  intros Hc. simpl. destruct (Ascii.eqb c " ") eqn:E.
  - apply Ascii.eqb_eq in E. subst c. discriminate Hc.
  - eexists. reflexivity.
Qed.

(** The cleaned text is empty exactly for a value of white space only. *)
Lemma cleaned_of_empty (value : string) :
  cleaned_of value = "" <-> Str.all Str.isspace value = true.
Proof.
  unfold cleaned_of, Str.strip. rewrite <- lstrip_empty.
  destruct (Str.lstrip value) as [|c t] eqn:E.
  - split; reflexivity.
  - pose proof (lstrip_head _ _ _ E) as Hc.
    destruct (rstrip_head c t Hc) as [r ->].
    destruct (replace_space_head c r Hc) as [r' ->].
    split; discriminate.
Qed.

Lemma lower_char_space (c : ascii) :
  c = " "%char -> Str.lower_char c <> "n"%char /\ Str.lower_char c <> "a"%char.
Proof. intros ->. split; discriminate. Qed.

(** A text that reads "nan" in lower case holds no space. *)
Lemma lower_nan_no_space (s : string) :
  Str.lower s = "nan" -> Str.replace " " "" s = s.
Proof.
  destruct s as [|c1 [|c2 [|c3 [|c4 s]]]]; simpl; try discriminate.
  intros E. injection E as E1 E2 E3.
  destruct (Ascii.eqb c1 " ") eqn:H1;
    [apply Ascii.eqb_eq in H1; now destruct (lower_char_space c1 H1)|].
  destruct (Ascii.eqb c2 " ") eqn:H2;
    [apply Ascii.eqb_eq in H2; now destruct (lower_char_space c2 H2)|].
  destruct (Ascii.eqb c3 " ") eqn:H3;
    [apply Ascii.eqb_eq in H3; now destruct (lower_char_space c3 H3)|].
  reflexivity.
Qed.

Lemma no_data_spec (cleaned : string) :
  no_data cleaned = true <-> cleaned = "" \/ Str.lower cleaned = "nan".
Proof.
  unfold no_data. rewrite orb_true_iff, !String.eqb_eq. reflexivity.
Qed.

(** Trimming alone already decides the two plain cases. *)
Lemma no_data_of_strip (value : string) :
  Str.strip value = "" \/ Str.lower (Str.strip value) = "nan" ->
  no_data (cleaned_of value) = true.
Proof.
  intros H. apply no_data_spec. unfold cleaned_of. destruct H as [H|H].
  - left. now rewrite H.
  - right. now rewrite (lower_nan_no_space _ H).
Qed.

(** ** Computations that log events *)

Lemma for_each_fst {A B} (f : A -> W B) (xs : list A) :
  fst (for_each f xs) = map (fun x => fst (f x)) xs.
Proof.
  induction xs as [|x xs IH]; simpl; [reflexivity|].
  unfold bind. destruct (f x) as [y t1].
  destruct (for_each f xs) as [ys t2]. simpl in *. now rewrite IH.
Qed.

Lemma for_each_snd {A B} (f : A -> W B) (xs : list A) :
  snd (for_each f xs) = flat_map (fun x => snd (f x)) xs.
Proof.
  induction xs as [|x xs IH]; simpl; [reflexivity|].
  unfold bind. destruct (f x) as [y t1].
  destruct (for_each f xs) as [ys t2]. simpl in *.
  now rewrite app_nil_r, IH.
Qed.

Lemma for_each_ext {A B} (f g : A -> W B) (xs : list A) :
  (forall x, In x xs -> f x = g x) -> for_each f xs = for_each g xs.
Proof.
  induction xs as [|x xs IH]; intros H; simpl; [reflexivity|].
  rewrite (H x (or_introl eq_refl)), IH; [reflexivity|].
  intros y Hy. apply H. now right.
Qed.

Lemma for_each_map {A B C} (f : B -> W C) (g : A -> B) (xs : list A) :
  for_each f (map g xs) = for_each (fun x => f (g x)) xs.
Proof.
  induction xs as [|x xs IH]; simpl; [reflexivity|]. now rewrite IH.
Qed.

(** ** Looking a column up *)

Lemma contains_In (cols : list string) (name : string) :
  contains cols name = true <-> In name cols.
Proof.
  unfold contains. rewrite existsb_exists. split.
  - intros [c [Hc E]]. apply String.eqb_eq in E. now subst.
  - intros H. exists name. split; [exact H|apply String.eqb_refl].
Qed.

Lemma contains_drop (cols : list string) (name c : string) :
  c <> name ->
  contains (filter (fun k => negb (k =? name)) cols) c = contains cols c.
Proof.
  intros Hc. apply eq_true_iff_eq. rewrite !contains_In, filter_In.
  rewrite negb_true_iff, String.eqb_neq. tauto.
Qed.

Lemma find_fillna (row : Series raw) (key : string) :
  find (map (fun kv => (fst kv, str_of_raw (snd kv))) row) key
  = option_map str_of_raw (find row key).
Proof.
  induction row as [|[k v] row IH]; simpl; [reflexivity|].
  now destruct (k =? key).
Qed.

Lemma find_drop {A} (row : Series A) (name key : string) :
  key <> name ->
  find (filter (fun kv => negb (fst kv =? name)) row) key = find row key.
Proof.
  intros Hk. induction row as [|[k v] row IH]; simpl; [reflexivity|].
  destruct (k =? name) eqn:E; simpl.
  - apply String.eqb_eq in E. subst k.
    destruct (name =? key) eqn:E'; [|exact IH].
    apply String.eqb_eq in E'. now subst.
  - now rewrite IH.
Qed.

Lemma find_project {A} (row : Series A) (cols : list string) (key : string) :
  find (flat_map (fun c => match find row c with
                           | Some v => [(c, v)]
                           | None => []
                           end) cols) key
  = if contains cols key then find row key else None.
Proof.
  unfold contains.
  induction cols as [|c cols IH]; simpl; [reflexivity|].
  rewrite (String.eqb_sym key c).
  destruct (find row c) as [v|] eqn:Ec; simpl.
  - destruct (c =? key) eqn:E; simpl.
    + apply String.eqb_eq in E. now subst.
    + exact IH.
  - destruct (c =? key) eqn:E; simpl.
    + apply String.eqb_eq in E. subst c. rewrite IH, Ec.
      now destruct (existsb _ _).
    + exact IH.
Qed.

Lemma find_none {A} (row : Series A) (key : string) :
  ~ In key (map fst row) -> find row key = None.
Proof.
  induction row as [|[k v] row IH]; simpl; [reflexivity|].
  intros H. destruct (k =? key) eqn:E.
  - apply String.eqb_eq in E. tauto.
  - apply IH. tauto.
Qed.

(** ** Lines 73-90: the selection of columns *)

Lemma expected_not_label5 (c : string) :
  In c expected_cols -> c <> "Label Number 5".
Proof.
  unfold expected_cols. simpl. intros H E. subst c.
  repeat (destruct H as [H|H]; [discriminate H|]). exact H.
Qed.

Lemma spec_selection_In (table : DataFrame raw) (c : string) :
  In c (spec_selection table) <-> In c expected_cols /\ In c (columns table).
Proof.
  unfold spec_selection. rewrite filter_In, contains_In. reflexivity.
Qed.

Lemma contains_selection (table : DataFrame raw) (c : string) :
  In c expected_cols ->
  contains (spec_selection table) c = contains (columns table) c.
Proof.
  intros Hc. apply eq_true_iff_eq.
  rewrite !contains_In, spec_selection_In. tauto.
Qed.

Lemma has_expected_selection (table : DataFrame raw) :
  has_expected table <-> spec_selection table <> [].
Proof.
  split.
  - intros [c Hc] E. apply spec_selection_In in Hc. rewrite E in Hc.
    exact Hc.
  - destruct (spec_selection table) as [|c l] eqn:E; [congruence|].
    intros _. exists c. apply spec_selection_In. rewrite E. now left.
Qed.

Lemma select_columns_eq (table : DataFrame raw) :
  select_columns table
  = match spec_selection table with
    | [] => inl (ValueError "No expected columns found in Excel file.")
    | _ :: _ =>
        inr (spec_selection table,
             mkFrame (spec_selection table)
                     (map (kept_row table) (rows table)))
    end.
Proof.
  unfold select_columns.
  set (df := if contains (columns (fillna_astype_str table)) "Label Number 5"
             then drop "Label Number 5" (fillna_astype_str table)
             else fillna_astype_str table).
  assert (Hsel : filter (contains (columns df)) expected_cols
                 = spec_selection table).
  { unfold spec_selection. apply filter_ext_in. intros c Hc.
    subst df. simpl.
    destruct (contains (columns table) "Label Number 5"); simpl;
      [|reflexivity].
    apply contains_drop. now apply expected_not_label5. }
  assert (Hall : forallb (contains (columns df)) (spec_selection table)
                 = true).
  { rewrite <- Hsel. apply forallb_forall. intros c Hc.
    now apply filter_In in Hc. }
  rewrite Hsel. destruct (spec_selection table) as [|c0 sel] eqn:E;
    [reflexivity|].
  unfold getitem. rewrite Hall. do 2 f_equal. f_equal.
  subst df. simpl. unfold kept_row. rewrite E.
  destruct (contains (columns table) "Label Number 5"); simpl;
    rewrite ?map_map; reflexivity.
Qed.

(** A kept row holds, under each selected name, the text of the field of
    the spreadsheet row. *)
Lemma get_kept_row (table : DataFrame raw) (row : Series raw) (c : string) :
  In c expected_cols ->
  map fst row = columns table ->
  get (kept_row table row) c "" = spec_field row c.
Proof.
  intros Hc Hrow. unfold get, kept_row, spec_field.
  rewrite find_project, (contains_selection _ _ Hc).
  assert (E : forall filled : Series string,
             find filled c = option_map str_of_raw (find row c) ->
             match (if contains (columns table) c then find filled c
                    else None) with
             | Some v => v
             | None => ""
             end = str_of_raw (get row c NaN)).
  { intros filled ->. destruct (contains (columns table) c) eqn:Ec.
    - unfold get. now destruct (find row c).
    - unfold get. rewrite find_none; [reflexivity|].
      rewrite Hrow, <- contains_In. now rewrite Ec. }
  destruct (contains (columns table) "Label Number 5"); apply E.
  - rewrite find_drop by now apply expected_not_label5.
    apply find_fillna.
  - apply find_fillna.
Qed.

Lemma selection_expected (table : DataFrame raw) (c : string) :
  In c (spec_selection table) -> In c expected_cols.
Proof. intros H. now apply spec_selection_In in H. Qed.

Lemma bind_fst {A B} (m : W A) (k : A -> W B) :
  fst (bind m k) = fst (k (fst m)).
Proof.
  unfold bind. destruct m as [a t1]. simpl. now destruct (k a).
Qed.

Lemma bind_snd {A B} (m : W A) (k : A -> W B) :
  snd (bind m k) = snd m ++ snd (k (fst m)).
Proof.
  unfold bind. destruct m as [a t1]. simpl. now destruct (k a).
Qed.

Lemma selection_perm (table table' : DataFrame raw) :
  Permutation (columns table) (columns table') ->
  spec_selection table' = spec_selection table.
Proof.
  intros P. unfold spec_selection. apply filter_ext. intros c.
  apply eq_true_iff_eq. rewrite !contains_In. split; intros H.
  - apply Permutation_sym in P. now apply (Permutation_in c P).
  - now apply (Permutation_in c P).
Qed.

Lemma flat_map_ext_In {A B} (f g : A -> list B) (l : list A) :
  (forall a, In a l -> f a = g a) -> flat_map f l = flat_map g l.
Proof.
  induction l as [|a l IH]; intros H; simpl; [reflexivity|].
  rewrite (H a (or_introl eq_refl)), IH; [reflexivity|].
  intros b Hb. apply H. now right.
Qed.

Lemma find_set_column {A} (name : string) (g : A -> A) (row : Series A)
    (key : string) :
  key <> name ->
  find (map (fun kv => if fst kv =? name then (fst kv, g (snd kv)) else kv)
            row) key
  = find row key.
Proof.
  intros Hk. induction row as [|[k v] row IH]; simpl; [reflexivity|].
  destruct (k =? name) eqn:E; simpl.
  - destruct (k =? key) eqn:E'; [|exact IH].
    apply String.eqb_eq in E, E'. congruence.
  - now rewrite IH.
Qed.

Lemma kept_row_set_column (table : DataFrame raw) (g : raw -> raw)
    (row : Series raw) :
  kept_row (set_column "Label Number 5" g table)
    (map (fun kv => if fst kv =? "Label Number 5"
                    then (fst kv, g (snd kv)) else kv) row)
  = kept_row table row.
Proof.
  unfold kept_row.
  change (spec_selection (set_column "Label Number 5" g table))
    with (spec_selection table).
  change (columns (set_column "Label Number 5" g table))
    with (columns table).
  apply flat_map_ext_In. intros c Hc.
  assert (Hne : c <> "Label Number 5").
  { apply expected_not_label5. now apply selection_expected in Hc. }
  destruct (contains (columns table) "Label Number 5").
  - now rewrite !find_drop, !find_fillna, find_set_column.
  - now rewrite !find_fillna, find_set_column.
Qed.

(** ** The encoder and the table, for any Code128 writer *)

Section Encoder.

Variable code128 : string -> exn + list Byte.byte.

(** ** The encoder, case by case *)

Lemma generate_no_data (value : string) (width height : Z) :
  no_data (cleaned_of value) = true ->
  generate_code128_barcode code128 value width height = (Empty, []).
Proof. intros H. unfold generate_code128_barcode. now rewrite H. Qed.

Lemma generate_encoded (value : string) (width height : Z)
    (png : list Byte.byte) :
  no_data (cleaned_of value) = false ->
  code128 (cleaned_of value) = inr png ->
  generate_code128_barcode code128 value width height
  = (Picture (mkImage png width height), [Code128 (cleaned_of value)]).
Proof.
  intros H E. unfold generate_code128_barcode. now rewrite H, E.
Qed.

Lemma generate_failed (value : string) (width height : Z) (exc : exn) :
  no_data (cleaned_of value) = false ->
  code128 (cleaned_of value) = inl exc ->
  generate_code128_barcode code128 value width height
  = (Empty, [Code128 (cleaned_of value); Print (Warning value exc)]).
Proof.
  intros H E. unfold generate_code128_barcode. now rewrite H, E.
Qed.

(** ** Lines 93-108: the rows *)

Lemma row_cells_kept (table : DataFrame raw) (row : Series raw) :
  map fst row = columns table ->
  row_cells code128 (spec_selection table) (kept_row table row) = spec_row code128 table row.
Proof.
  intros Hrow. unfold row_cells, spec_row.
  change (range 1 5) with [1; 2; 3; 4]%Z.
  change (for_each
            (fun i : Z =>
               generate_code128_barcode code128
                 (get (kept_row table row)
                      ("Label Number " ++ Str.of_int i)%string "")
                 default_width default_height) [1; 2; 3; 4]%Z)
    with (for_each
            (fun i : Z =>
               (fun col => generate_code128_barcode code128
                             (get (kept_row table row) col "") 80 25)
                 ("Label Number " ++ Str.of_int i)%string) [1; 2; 3; 4]%Z).
  rewrite <- (for_each_map
                (fun col => generate_code128_barcode code128
                              (get (kept_row table row) col "") 80 25)
                (fun i => ("Label Number " ++ Str.of_int i)%string)).
  change (map (fun i => ("Label Number " ++ Str.of_int i)%string)
              [1; 2; 3; 4]%Z)
    with ["Label Number 1"; "Label Number 2";
          "Label Number 3"; "Label Number 4"].
  rewrite (for_each_ext
             (fun col => generate_code128_barcode code128
                           (get (kept_row table row) col "") 80 25)
             (fun col => generate_code128_barcode code128 (spec_field row col) 80 25)).
  - f_equal.
    rewrite (map_ext_in
               (fun col => Text (get (kept_row table row) col ""))
               (fun col => Text (spec_field row col))); [reflexivity|].
    intros c Hc. f_equal. apply get_kept_row; [|exact Hrow].
    now apply selection_expected in Hc.
  - intros c Hc. f_equal. apply get_kept_row; [|exact Hrow].
    unfold expected_cols. simpl in *. tauto.
Qed.

(** The script builds the table the specification describes. *)
Lemma assemble_spec (table : DataFrame raw) :
  rectangular table -> has_expected table ->
  assemble code128 table = inr (spec_table code128 table).
Proof.
  intros Hrect Hexp. unfold assemble. rewrite select_columns_eq.
  apply has_expected_selection in Hexp.
  destruct (spec_selection table) as [|c0 sel] eqn:E; [congruence|].
  rewrite <- E. f_equal. unfold table_data, spec_table. simpl rows.
  rewrite for_each_map.
  rewrite (for_each_ext _ (spec_row code128 table)); [reflexivity|].
  intros row Hrow. apply row_cells_kept.
  unfold rectangular in Hrect. rewrite Forall_forall in Hrect.
  now apply Hrect.
Qed.

Lemma assemble_no_columns (table : DataFrame raw) :
  ~ has_expected table ->
  assemble code128 table = inl (ValueError "No expected columns found in Excel file.").
Proof.
  intros H. unfold assemble. rewrite select_columns_eq.
  destruct (spec_selection table) as [|c0 sel] eqn:E; [reflexivity|].
  exfalso. apply H. apply has_expected_selection. congruence.
Qed.

Lemma row_cells_fst (available_cols : list string) (row : Series string) :
  fst (row_cells code128 available_cols row)
  = map (fun col => Text (get row col "")) available_cols
    ++ map (fun col => fst (generate_code128_barcode code128 (get row col "") 80 25))
         [ "Label Number 1"; "Label Number 2";
           "Label Number 3"; "Label Number 4" ].
Proof.
  unfold row_cells. rewrite bind_fst. unfold ret. cbn [fst].
  rewrite for_each_fst. reflexivity.
Qed.

Lemma row_cells_length (available_cols : list string) (row : Series string) :
  length (fst (row_cells code128 available_cols row)) = length available_cols + 4.
Proof.
  rewrite row_cells_fst, length_app, !length_map. reflexivity.
Qed.

(** With an expected column present the table is built: the header, then
    one row of the same width for each row read. *)
Lemma assemble_shape (table : DataFrame raw) :
  has_expected table ->
  exists body events,
    assemble code128 table = inr (map Text (spec_header table) :: body, events)
    /\ length body = length (rows table)
    /\ Forall (fun r => length r = length (spec_selection table) + 4) body.
Proof.
  intros Hexp. unfold assemble. rewrite select_columns_eq.
  apply has_expected_selection in Hexp.
  destruct (spec_selection table) as [|c0 sel] eqn:E; [congruence|].
  rewrite <- E. unfold table_data. simpl rows.
  set (m := for_each (row_cells code128 (spec_selection table))
              (map (kept_row table) (rows table))).
  exists (fst m), (snd m). split; [|split].
  - f_equal. unfold bind. destruct m as [body ev]. simpl.
    now rewrite app_nil_r.
  - subst m. now rewrite for_each_fst, !length_map.
  - subst m. rewrite for_each_fst. apply Forall_forall. intros r Hr.
    apply in_map_iff in Hr. destruct Hr as [x [<- _]].
    apply row_cells_length.
Qed.

(** ** The claims *)

(** C1: for a table with at least one expected column, the header row of
    the output table is the expected names that are columns of the input,
    in the fixed order, followed by "Label 1 Barcode" to "Label 4 Barcode";
    a table with the same columns in another order gets the same header. *)
Theorem header_is_selection_then_barcode_labels
    (table table' : DataFrame raw) :
  has_expected table ->
  Permutation (columns table) (columns table') ->
  let header :=
    filter (fun c => contains (columns table) c)
      [ "S.No."; "Applicant No"; "Artisan Name"; "Label Number 1";
        "Label Number 2"; "Label Number 3"; "Label Number 4" ]
    ++ [ "Label 1 Barcode"; "Label 2 Barcode";
         "Label 3 Barcode"; "Label 4 Barcode" ] in
  (exists body events,
      assemble code128 table = inr (map Text header :: body, events))
  /\ (exists body events,
         assemble code128 table' = inr (map Text header :: body, events)).
Proof.
  intros Hexp P header. split.
  - destruct (assemble_shape table Hexp) as [body [ev [E _]]].
    now exists body, ev.
  - assert (Hexp' : has_expected table').
    { apply has_expected_selection. rewrite (selection_perm _ _ P).
      now apply has_expected_selection. }
    destruct (assemble_shape table' Hexp') as [body [ev [E _]]].
    exists body, ev. rewrite E. unfold spec_header.
    now rewrite (selection_perm _ _ P).
Qed.

(** C2: for a table with at least one expected column, the script builds
    the header and then, for each row in table order, the selected fields
    as text in the fixed order followed by what the encoder returns for
    "Label Number 1" to "Label Number 4" at width 80 and height 25; a label
    column the input lacks gives the empty placeholder, with no call of the
    Code128 writer. *)
Theorem rows_are_texts_then_barcodes (table : DataFrame raw) :
  rectangular table -> has_expected table ->
  assemble code128 table = inr (spec_table code128 table)
  /\ fst (spec_table code128 table)
     = map Text (spec_header table)
       :: map (fun row =>
                 map (fun col => Text (spec_field row col))
                     (spec_selection table)
                 ++ map (fun col =>
                           fst (generate_code128_barcode code128
                                  (spec_field row col) 80 25))
                      [ "Label Number 1"; "Label Number 2";
                        "Label Number 3"; "Label Number 4" ])
              (rows table)
  /\ (forall row col,
         In row (rows table) -> ~ In col (columns table) ->
         generate_code128_barcode code128 (spec_field row col) 80 25 = (Empty, [])).
Proof.
  intros Hrect Hexp. split; [now apply assemble_spec|split].
  - unfold spec_table. rewrite bind_fst. unfold ret. cbn [fst]. f_equal.
    rewrite for_each_fst. apply map_ext. intros row.
    unfold spec_row. rewrite bind_fst. unfold ret. cbn [fst].
    now rewrite for_each_fst.
  - intros row col Hrow Hcol. apply generate_no_data.
    unfold spec_field, get. rewrite find_none; [reflexivity|].
    unfold rectangular in Hrect. rewrite Forall_forall in Hrect.
    now rewrite (Hrect row Hrow).
Qed.

(** C3 (amended): the encoder returns the empty placeholder without a call
    of the Code128 writer exactly when the value, trimmed and with every
    space removed, is empty or reads "nan" in any letter case.  That covers
    every value that is empty or reads "nan" after trimming alone, and the
    cleaned text is empty exactly for a value of white space only.  The
    cell of the output row for such a label field is the empty
    placeholder. *)
Theorem no_data_iff_cleaned_empty_or_nan
    (value : string) (width height : Z) :
  (generate_code128_barcode code128 value width height = (Empty, [])
   <-> cleaned_of value = "" \/ Str.lower (cleaned_of value) = "nan")
  /\ (Str.strip value = "" \/ Str.lower (Str.strip value) = "nan" ->
      generate_code128_barcode code128 value width height = (Empty, []))
  /\ (cleaned_of value = "" <-> Str.all Str.isspace value = true)
  /\ (forall (available_cols : list string) (row : Series string) (k : nat),
         nth_error [ "Label Number 1"; "Label Number 2";
                     "Label Number 3"; "Label Number 4" ] k = Some value ->
         no_data (cleaned_of (get row value "")) = true ->
         nth_error (fst (row_cells code128 available_cols row))
                   (length available_cols + k) = Some Empty).
Proof.
  split; [|split; [|split]].
  - rewrite <- no_data_spec. split.
    + intros E. destruct (no_data (cleaned_of value)) eqn:N; [reflexivity|].
      unfold generate_code128_barcode in E. rewrite N in E.
      unfold bind, tell in E.
      destruct (code128 (cleaned_of value)); discriminate E.
    + apply generate_no_data.
  - intros H. apply generate_no_data. now apply no_data_of_strip.
  - apply cleaned_of_empty.
  - intros available_cols row k Hk N. rewrite row_cells_fst.
    rewrite nth_error_app2 by (rewrite length_map; lia).
    rewrite length_map.
    replace (length available_cols + k - length available_cols) with k
      by lia.
    do 4 (destruct k as [|k];
          [injection Hk as <-; simpl; now rewrite generate_no_data|]).
    destruct k; discriminate Hk.
Qed.

(** C7: the column "Label Number 5" never reaches the output: the table
    built is the same whatever that column holds, and its header row does
    not contain the name. *)
Theorem label5_never_in_output (table : DataFrame raw) (g : raw -> raw) :
  assemble code128 (set_column "Label Number 5" g table) = assemble code128 table
  /\ ~ In "Label Number 5" (spec_header table)
  /\ match assemble code128 table with
     | inr (cells, _) => ~ In (Text "Label Number 5") (hd [] cells)
     | inl _ => True
     end.
Proof.
  assert (Hhead : ~ In "Label Number 5" (spec_header table)).
  { unfold spec_header. rewrite in_app_iff. intros [H|H].
    - apply (selection_expected table) in H.
      now apply expected_not_label5 in H.
    - simpl in H. repeat (destruct H as [H|H]; [discriminate H|]).
      exact H. }
  split; [|split; [exact Hhead|]].
  - unfold assemble. rewrite !select_columns_eq.
    change (spec_selection (set_column "Label Number 5" g table))
      with (spec_selection table).
    destruct (spec_selection table) as [|c0 sel] eqn:E; [reflexivity|].
    rewrite <- E. do 3 f_equal. unfold set_column. simpl rows.
    rewrite map_map. apply map_ext. intros row.
    apply kept_row_set_column.
  - unfold assemble. rewrite select_columns_eq.
    destruct (spec_selection table) as [|c0 sel] eqn:E; [exact I|].
    rewrite <- E. unfold table_data.
    destruct (for_each _ _) as [body ev]. simpl.
    intros H. apply in_map_iff in H. destruct H as [c [Hc Hin]].
    injection Hc as ->. exact (Hhead Hin).
Qed.

(** C8 (amended): for every value whose cleaned text is not empty, does not
    read "nan" in any letter case, and is encoded by the Code128 writer,
    and for every width and height, the encoder returns an image handle of
    exactly that width and height over the bytes the writer produced. *)
Theorem encoded_value_gives_image_of_requested_size
    (value : string) (width height : Z) (png : list Byte.byte) :
  cleaned_of value <> "" ->
  Str.lower (cleaned_of value) <> "nan" ->
  code128 (cleaned_of value) = inr png ->
  exists img,
    generate_code128_barcode code128 value width height
    = (Picture img, [Code128 (cleaned_of value)])
    /\ img_width img = width /\ img_height img = height
    /\ img_buffer img = png.
Proof.
  intros H1 H2 E. exists (mkImage png width height).
  split; [|now simpl]. apply generate_encoded; [|exact E].
  destruct (no_data (cleaned_of value)) eqn:N; [|reflexivity].
  apply no_data_spec in N. tauto.
Qed.

(** C10: for a table with at least one expected column, the header row and
    every data row of the table built have as many cells as there are
    selected columns, plus four. *)
Theorem every_row_has_selection_plus_four_cells (table : DataFrame raw) :
  has_expected table ->
  exists cells events,
    assemble code128 table = inr (cells, events)
    /\ length cells = S (length (rows table))
    /\ Forall (fun r => length r = length (spec_selection table) + 4) cells
    /\ Forall (fun r => length r = length (hd [] cells)) cells.
Proof.
  intros Hexp. destruct (assemble_shape table Hexp) as [body [ev [A [L F]]]].
  exists (map Text (spec_header table) :: body), ev.
  assert (Hh : length (map Text (spec_header table))
               = length (spec_selection table) + 4).
  { unfold spec_header. now rewrite length_map, length_app. }
  repeat split.
  - exact A.
  - simpl. now rewrite L.
  - constructor; [exact Hh|exact F].
  - simpl hd. rewrite Hh. constructor; [exact Hh|exact F].
Qed.

(** The cells and the events of the table the specification describes. *)
Lemma spec_table_fst (table : DataFrame raw) :
  fst (spec_table code128 table)
  = map Text (spec_header table)
    :: map (fun row =>
              map (fun col => Text (spec_field row col))
                  (spec_selection table)
              ++ map (fun col =>
                        fst (generate_code128_barcode code128
                               (spec_field row col) 80 25))
                   [ "Label Number 1"; "Label Number 2";
                     "Label Number 3"; "Label Number 4" ])
           (rows table).
Proof.
  unfold spec_table. rewrite bind_fst. unfold ret. cbn [fst]. f_equal.
  rewrite for_each_fst. apply map_ext. intros row.
  unfold spec_row. rewrite bind_fst. unfold ret. cbn [fst].
  now rewrite for_each_fst.
Qed.

Lemma spec_table_snd (table : DataFrame raw) :
  snd (spec_table code128 table)
  = flat_map
      (fun row =>
         flat_map
           (fun col =>
              snd (generate_code128_barcode code128
                     (spec_field row col) 80 25))
           [ "Label Number 1"; "Label Number 2";
             "Label Number 3"; "Label Number 4" ])
      (rows table).
Proof.
  unfold spec_table. rewrite bind_snd. unfold ret. cbn [snd].
  rewrite app_nil_r, for_each_snd. apply flat_map_ext. intros row.
  unfold spec_row. rewrite bind_snd. unfold ret. cbn [snd].
  now rewrite app_nil_r, for_each_snd.
Qed.

(** ** The whole run, for any reader and document builder *)

Section Run.

Variable disk : Type.
Variable read_excel : string -> disk -> exn + DataFrame raw.
Variable build : string -> list (list cell) -> disk -> option exn * disk.

(** The script, once the spreadsheet is read and the table built. *)
Lemma excel_to_barcode_pdf_build (input_excel output_pdf : string) (d : disk)
    (table : DataFrame raw) (cells : list (list cell))
    (events : list event) :
  read_excel input_excel d = inr table ->
  assemble code128 table = inr (cells, events) ->
  excel_to_barcode_pdf code128 disk read_excel build input_excel output_pdf d
  = match build output_pdf cells d with
    | (Some exc, d') => mkOutcome (inl exc) events d'
    | (None, d') =>
        mkOutcome (inr tt) (events ++ [Print (Created output_pdf)]) d'
    end.
Proof.
  intros R A. unfold excel_to_barcode_pdf. now rewrite R, A.
Qed.

(** C4: when none of the expected columns is in the table read, the run
    ends with the schema error; nothing was encoded or printed and the disk
    is as it was. *)
Theorem no_expected_column_is_schema_error
    (input_excel output_pdf : string) (d : disk) (table : DataFrame raw) :
  read_excel input_excel d = inr table ->
  (forall c, In c expected_cols -> ~ In c (columns table)) ->
  excel_to_barcode_pdf code128 disk read_excel build input_excel output_pdf d
  = mkOutcome (inl (ValueError "No expected columns found in Excel file."))
      [] d.
Proof.
  intros R H. unfold excel_to_barcode_pdf. rewrite R.
  rewrite assemble_no_columns; [reflexivity|].
  intros [c [Hc Hin]]. exact (H c Hc Hin).
Qed.

(** C5: when the Code128 writer raises on the cleaned value, the encoder
    prints the warning that names the value and the exception and returns
    the empty placeholder; it raises nothing.  Whatever the writer does,
    a table with an expected column is built with a row for every row
    read and handed to the document builder.  In the table built from a
    table that holds the value in a label field, the cell of that field is
    the empty placeholder, the warning is among the events, and every
    other cell of every row is what it is without the failure: the text of
    its field, or what the encoder returns for its own field. *)
Theorem encoding_failure_gives_blank_cell
    (value : string) (width height : Z) (exc : exn) :
  no_data (cleaned_of value) = false ->
  code128 (cleaned_of value) = inl exc ->
  generate_code128_barcode code128 value width height
  = (Empty, [Code128 (cleaned_of value); Print (Warning value exc)])
  /\ (forall input_excel output_pdf d table,
         read_excel input_excel d = inr table ->
         has_expected table ->
         exists cells events,
           assemble code128 table = inr (cells, events)
           /\ length cells = S (length (rows table))
           /\ excel_to_barcode_pdf code128 disk read_excel build
                input_excel output_pdf d
              = match build output_pdf cells d with
                | (Some e, d') => mkOutcome (inl e) events d'
                | (None, d') =>
                    mkOutcome (inr tt)
                      (events ++ [Print (Created output_pdf)]) d'
                end)
  /\ (forall table i row k col,
         rectangular table ->
         has_expected table ->
         nth_error (rows table) i = Some row ->
         nth_error [ "Label Number 1"; "Label Number 2";
                     "Label Number 3"; "Label Number 4" ] k = Some col ->
         spec_field row col = value ->
         exists cells events out,
           assemble code128 table = inr (cells, events)
           /\ cells
              = map Text (spec_header table)
                :: map (fun r =>
                          map (fun c => Text (spec_field r c))
                              (spec_selection table)
                          ++ map (fun c =>
                                    fst (generate_code128_barcode code128
                                           (spec_field r c) 80 25))
                               [ "Label Number 1"; "Label Number 2";
                                 "Label Number 3"; "Label Number 4" ])
                       (rows table)
           /\ nth_error cells (S i) = Some out
           /\ nth_error out (length (spec_selection table) + k) = Some Empty
           /\ In (Print (Warning value exc)) events).
Proof.
  intros N E. split; [now apply generate_failed|]. split.
  - intros input_excel output_pdf d table R Hexp.
    destruct (assemble_shape table Hexp) as [body [ev [A [L _]]]].
    exists (map Text (spec_header table) :: body), ev.
    split; [exact A|split].
    + simpl. now rewrite L.
    + now apply (excel_to_barcode_pdf_build _ _ _ table).
  - intros table i row k col Hrect Hexp Hrow Hcol Hval.
    pose proof (generate_failed value 80 25 exc N E) as G.
    eexists _, _, _. split; [|split; [|split; [|split]]].
    + rewrite (assemble_spec table Hrect Hexp).
      now rewrite (surjective_pairing (spec_table code128 table)).
    + apply spec_table_fst.
    + rewrite spec_table_fst. cbn [nth_error].
      rewrite nth_error_map, Hrow. reflexivity.
    + rewrite nth_error_app2 by (rewrite length_map; lia).
      rewrite length_map.
      replace (length (spec_selection table) + k
               - length (spec_selection table)) with k by lia.
      rewrite nth_error_map, Hcol. cbn [option_map].
      now rewrite Hval, G.
    + rewrite spec_table_snd. apply in_flat_map. exists row.
      split; [now apply nth_error_In in Hrow|].
      apply in_flat_map. exists col.
      split; [now apply nth_error_In in Hcol|].
      rewrite Hval, G. right. now left.
Qed.

(** C6: when the spreadsheet cannot be read, the run ends with the
    source-read error whose text holds the path and the text of the
    exception raised by the reader; nothing was encoded or printed and the
    disk is as it was. *)
Theorem unreadable_source_is_read_error
    (input_excel output_pdf : string) (d : disk) (exc : exn) :
  read_excel input_excel d = inl exc ->
  excel_to_barcode_pdf code128 disk read_excel build input_excel output_pdf d
  = mkOutcome
      (inl (FileNotFoundError
              ("Unable to read Excel file '" ++ input_excel ++ "': "
               ++ str_exn exc)%string))
      [] d.
Proof.
  intros R. unfold excel_to_barcode_pdf. now rewrite R.
Qed.

End Run.

End Encoder.

(** ** The encoder, for any Code128 writer with a state of its own *)

Section EncoderStateFacts.

Variable lib_state : Type.
Variable code128_io :
  string -> lib_state -> (exn + list Byte.byte) * lib_state.


End EncoderStateFacts.

(** ** The script on sample tables *)

(** The scenario of the specification: columns "S.No.", "Artisan Name" and
    "Label Number 1", rows ("1", "Alice", "AB123") and ("2", "Bob", blank). *)
Example labels_scenario :
  assemble code128_ok labels_frame
  = inr ([ [ Text "S.No."; Text "Artisan Name"; Text "Label Number 1";
             Text "Label 1 Barcode"; Text "Label 2 Barcode";
             Text "Label 3 Barcode"; Text "Label 4 Barcode" ];
           [ Text "1"; Text "Alice"; Text "AB123";
             Picture (mkImage [Byte.x41; Byte.x42; Byte.x31; Byte.x32;
                               Byte.x33] 80 25);
             Empty; Empty; Empty ];
           [ Text "2"; Text "Bob"; Text ""; Empty; Empty; Empty; Empty ] ],
         [ Code128 "AB123" ]).
Proof. reflexivity. Qed.

Example labels_run :
  excel_to_barcode_pdf code128_ok files read_sample build_sample
    "labels.xlsx" "output_labels.pdf" []
  = match assemble code128_ok labels_frame with
    | inr (cells, events) =>
        mkOutcome (inr tt)
          (events ++ [Print (Created "output_labels.pdf")])
          [("output_labels.pdf", cells)]
    | inl exc => mkOutcome (inl exc) [] []
    end.
Proof. reflexivity. Qed.

Lemma labels_frame_has_expected : has_expected labels_frame.
Proof. exists "S.No.". simpl. tauto. Defined.

Lemma labels_frame_rectangular : rectangular labels_frame.
Proof. repeat constructor. Defined.

Lemma header_is_selection_then_barcode_labels_witness :
  has_expected labels_frame
  /\ Permutation (columns labels_frame) (columns shuffled_frame)
  /\ (exists body events,
         assemble code128_ok labels_frame
         = inr (map Text [ "S.No."; "Artisan Name"; "Label Number 1";
                           "Label 1 Barcode"; "Label 2 Barcode";
                           "Label 3 Barcode"; "Label 4 Barcode" ] :: body,
                events))
  /\ (exists body events,
         assemble code128_ok shuffled_frame
         = inr (map Text [ "S.No."; "Artisan Name"; "Label Number 1";
                           "Label 1 Barcode"; "Label 2 Barcode";
                           "Label 3 Barcode"; "Label 4 Barcode" ] :: body,
                events)).
Proof.
  assert (P : Permutation (columns labels_frame) (columns shuffled_frame)).
  { apply Permutation_sym.
    exact (Permutation_cons_append ["S.No."; "Artisan Name"]
             "Label Number 1"). }
  split; [exact labels_frame_has_expected|split; [exact P|]].
  exact (header_is_selection_then_barcode_labels code128_ok
           labels_frame shuffled_frame labels_frame_has_expected P).
Defined.

Lemma rows_are_texts_then_barcodes_witness :
  rectangular labels_frame /\ has_expected labels_frame
  /\ assemble code128_ok labels_frame
     = inr (spec_table code128_ok labels_frame).
Proof.
  split; [exact labels_frame_rectangular|].
  split; [exact labels_frame_has_expected|].
  exact (proj1 (rows_are_texts_then_barcodes code128_ok labels_frame
                  labels_frame_rectangular labels_frame_has_expected)).
Defined.

(** C3, as stated, fails: "n a n" is neither empty nor "nan" after
    trimming, and the encoder returns the empty placeholder for it without
    a call of the Code128 writer. *)
Lemma spaced_nan_is_no_data :
  ~ (forall (code128 : string -> exn + list Byte.byte)
            (value : string) (width height : Z),
        generate_code128_barcode code128 value width height = (Empty, [])
        <-> Str.strip value = "" \/ Str.lower (Str.strip value) = "nan").
Proof.
  intros H. destruct (H code128_ok "n a n" 80%Z 25%Z) as [H1 _].
  destruct (H1 eq_refl) as [E|E]; discriminate E.
Qed.

Lemma unrelated_frame_lacks_expected :
  forall c, In c expected_cols -> ~ In c (columns unrelated_frame).
Proof.
  intros c Hc H. simpl in H. destruct H as [<-|[<-|[]]]; simpl in Hc;
    repeat (destruct Hc as [Hc|Hc]; [discriminate Hc|]); exact Hc.
Defined.

Lemma no_expected_column_is_schema_error_witness :
  read_sample "other.xlsx" [] = inr unrelated_frame
  /\ (forall c, In c expected_cols -> ~ In c (columns unrelated_frame))
  /\ excel_to_barcode_pdf code128_ok files read_sample build_sample
       "other.xlsx" "output_labels.pdf" []
     = mkOutcome
         (inl (ValueError "No expected columns found in Excel file."))
         [] [].
Proof.
  split; [reflexivity|split; [exact unrelated_frame_lacks_expected|]].
  exact (no_expected_column_is_schema_error code128_ok files read_sample
           build_sample "other.xlsx" "output_labels.pdf" [] unrelated_frame
           eq_refl unrelated_frame_lacks_expected).
Defined.

(** A row with a label the writer cannot encode: its barcode cell is
    blank, the warning is printed, and the other cells and the next row
    are built. *)
Example accented_scenario :
  assemble code128_ascii accented_frame
  = inr ([ [ Text "S.No."; Text "Label Number 1"; Text "Label Number 2";
             Text "Label 1 Barcode"; Text "Label 2 Barcode";
             Text "Label 3 Barcode"; Text "Label 4 Barcode" ];
           [ Text "1"; Text accented_value; Text "CD45";
             Empty;
             Picture (mkImage [Byte.x43; Byte.x44; Byte.x34; Byte.x35]
                              80 25);
             Empty; Empty ];
           [ Text "2"; Text "EF67"; Text "";
             Picture (mkImage [Byte.x45; Byte.x46; Byte.x36; Byte.x37]
                              80 25);
             Empty; Empty; Empty ] ],
         [ Code128 accented_value;
           Print (Warning accented_value
                    (Exception "character not in Code128"));
           Code128 "CD45"; Code128 "EF67" ]).
Proof. reflexivity. Qed.

Lemma accented_frame_has_expected : has_expected accented_frame.
Proof. exists "S.No.". simpl. tauto. Defined.

Lemma accented_frame_rectangular : rectangular accented_frame.
Proof. repeat constructor. Defined.

Lemma encoding_failure_gives_blank_cell_witness :
  no_data (cleaned_of accented_value) = false
  /\ code128_ascii (cleaned_of accented_value)
     = inl (Exception "character not in Code128")
  /\ generate_code128_barcode code128_ascii accented_value 80 25
     = (Empty, [ Code128 accented_value;
                 Print (Warning accented_value
                          (Exception "character not in Code128")) ])
  /\ exists cells events out,
       assemble code128_ascii accented_frame = inr (cells, events)
       /\ nth_error cells 1 = Some out
       /\ nth_error out (length (spec_selection accented_frame) + 0)
          = Some Empty
       /\ In (Print (Warning accented_value
                       (Exception "character not in Code128"))) events.
Proof.
  pose proof (encoding_failure_gives_blank_cell code128_ascii files
                read_sample build_sample accented_value 80 25
                (Exception "character not in Code128")
                eq_refl eq_refl) as [H1 [_ H3]].
  split; [reflexivity|split; [reflexivity|split; [exact H1|]]].
  destruct (H3 accented_frame 0
              [ ("S.No.", Value "1");
                ("Label Number 1", Value accented_value);
                ("Label Number 2", Value "CD45") ]
              0 "Label Number 1"
              accented_frame_rectangular accented_frame_has_expected
              eq_refl eq_refl eq_refl)
    as [cells [events [out [A [_ [Hrow [Hcell Hin]]]]]]].
  now exists cells, events, out.
Defined.

Lemma unreadable_source_is_read_error_witness :
  read_sample "missing.xlsx" [] = inl (Exception "No such file or directory")
  /\ excel_to_barcode_pdf code128_ok files read_sample build_sample
       "missing.xlsx" "output_labels.pdf" []
     = mkOutcome
         (inl (FileNotFoundError
                 "Unable to read Excel file 'missing.xlsx': No such file or directory"))
         [] [].
Proof.
  split; [reflexivity|].
  exact (unreadable_source_is_read_error code128_ok files read_sample
           build_sample "missing.xlsx" "output_labels.pdf" []
           (Exception "No such file or directory") eq_refl).
Defined.

(** C8, as stated, fails: "nan" is a non-empty text of ASCII letters that
    the Code128 writer encodes, and the encoder returns no image for it. *)
Lemma nan_text_gets_no_image :
  ~ (forall (code128 : string -> exn + list Byte.byte)
            (value : string) (width height : Z) (png : list Byte.byte),
        Str.all (fun c => Str.isalnum_ascii c || Ascii.eqb c " ") value
        = true ->
        cleaned_of value <> "" ->
        code128 (cleaned_of value) = inr png ->
        exists img,
          fst (generate_code128_barcode code128 value width height)
          = Picture img
          /\ img_width img = width /\ img_height img = height).
Proof.
  intros H.
  destruct (H code128_ok "nan" 80%Z 25%Z
              [Byte.x6e; Byte.x61; Byte.x6e] eq_refl) as [img [E _]].
  - discriminate.
  - reflexivity.
  - discriminate E.
Qed.

Lemma encoded_value_gives_image_of_requested_size_witness :
  cleaned_of " AB 123 " <> ""
  /\ Str.lower (cleaned_of " AB 123 ") <> "nan"
  /\ code128_ok (cleaned_of " AB 123 ")
     = inr [Byte.x41; Byte.x42; Byte.x31; Byte.x32; Byte.x33]
  /\ exists img,
       generate_code128_barcode code128_ok " AB 123 " 120 40
       = (Picture img, [Code128 (cleaned_of " AB 123 ")])
       /\ img_width img = 120%Z /\ img_height img = 40%Z
       /\ img_buffer img
          = [Byte.x41; Byte.x42; Byte.x31; Byte.x32; Byte.x33].
Proof.
  assert (H1 : cleaned_of " AB 123 " <> "") by discriminate.
  assert (H2 : Str.lower (cleaned_of " AB 123 ") <> "nan") by discriminate.
  split; [exact H1|split; [exact H2|split; [reflexivity|]]].
  exact (encoded_value_gives_image_of_requested_size code128_ok
           " AB 123 " 120 40 _ H1 H2 eq_refl).
Defined.


Lemma every_row_has_selection_plus_four_cells_witness :
  has_expected labels_frame
  /\ exists cells events,
       assemble code128_ok labels_frame = inr (cells, events)
       /\ length cells = S (length (rows labels_frame))
       /\ Forall (fun r => length r
                           = length (spec_selection labels_frame) + 4) cells
       /\ Forall (fun r => length r = length (hd [] cells)) cells.
Proof.
  split; [exact labels_frame_has_expected|].
  exact (every_row_has_selection_plus_four_cells code128_ok labels_frame
           labels_frame_has_expected).
Defined.

(** ** Further facts: the cleaned text *)

Lemma rstrip_ends_clean (s : string) : ends_clean (Str.rstrip s) = true.
Proof.
  induction s as [|c s IH]; simpl; [reflexivity|].
  destruct (Str.rstrip s) as [|a r] eqn:E.
  - destruct (Str.isspace c) eqn:Hc; simpl; [reflexivity|now rewrite Hc].
  - exact IH.
Qed.

Lemma ends_clean_rstrip (s : string) :
  ends_clean s = true -> Str.rstrip s = s.
Proof.
  induction s as [|c s IH]; simpl; [reflexivity|].
  destruct s as [|a r].
  - simpl. intros H. apply negb_true_iff in H. now rewrite H.
  - intros H. rewrite (IH H). reflexivity.
Qed.

Lemma ends_clean_replace_nonempty (s : string) :
  ends_clean s = true -> s <> "" -> Str.replace " " "" s <> "".
Proof.
  induction s as [|c s IH]; [congruence|].
  intros H _. destruct s as [|a r].
  - simpl in H. apply negb_true_iff in H. simpl.
    destruct (Ascii.eqb c " ") eqn:E; [|discriminate].
    apply Ascii.eqb_eq in E. subst c. discriminate H.
  - change (ends_clean (String c (String a r)))
      with (ends_clean (String a r)) in H.
    change (Str.replace " " "" (String c (String a r)))
      with (if Ascii.eqb c " "
            then ("" ++ Str.replace " " "" (String a r))%string
            else String c (Str.replace " " "" (String a r))).
    destruct (Ascii.eqb c " "); [|discriminate].
    apply IH; [exact H|discriminate].
Qed.

Lemma ends_clean_replace (s : string) :
  ends_clean s = true -> ends_clean (Str.replace " " "" s) = true.
Proof.
  induction s as [|c s IH]; [reflexivity|].
  intros H. destruct s as [|a r].
  - simpl in H. simpl. destruct (Ascii.eqb c " "); [reflexivity|exact H].
  - change (ends_clean (String c (String a r)))
      with (ends_clean (String a r)) in H.
    change (Str.replace " " "" (String c (String a r)))
      with (if Ascii.eqb c " "
            then ("" ++ Str.replace " " "" (String a r))%string
            else String c (Str.replace " " "" (String a r))).
    destruct (Ascii.eqb c " "); [now apply IH|].
    pose proof (ends_clean_replace_nonempty (String a r) H) as N.
    destruct (Str.replace " " "" (String a r)) as [|b t] eqn:E.
    + exfalso. apply N; [discriminate|reflexivity].
    + change (ends_clean (String c (String b t)))
        with (ends_clean (String b t)). now apply IH.
Qed.

Lemma replace_no_space (s : string) :
  no_space (Str.replace " " "" s) = true.
Proof.
  unfold no_space. induction s as [|c s IH]; simpl; [reflexivity|].
  destruct (Ascii.eqb c " ") eqn:E; simpl; [exact IH|].
  now rewrite E, IH.
Qed.

Lemma no_space_replace (s : string) :
  no_space s = true -> Str.replace " " "" s = s.
Proof.
  unfold no_space. induction s as [|c s IH]; simpl; [reflexivity|].
  intros H. apply andb_true_iff in H. destruct H as [Hc Hs].
  apply negb_true_iff in Hc. now rewrite Hc, IH.
Qed.

Lemma cleaned_no_space (value : string) : no_space (cleaned_of value) = true.
Proof. apply replace_no_space. Qed.

Lemma cleaned_ends_clean (value : string) :
  ends_clean (cleaned_of value) = true.
Proof. apply ends_clean_replace, rstrip_ends_clean. Qed.

Lemma cleaned_lstrip (value : string) :
  Str.lstrip (cleaned_of value) = cleaned_of value.
Proof.
  unfold cleaned_of, Str.strip.
  destruct (Str.lstrip value) as [|c t] eqn:E; [reflexivity|].
  pose proof (lstrip_head _ _ _ E) as Hc.
  destruct (rstrip_head c t Hc) as [r ->].
  destruct (replace_space_head c r Hc) as [r' ->].
  simpl. now rewrite Hc.
Qed.

Lemma cleaned_strip (value : string) :
  Str.strip (cleaned_of value) = cleaned_of value.
Proof.
  unfold Str.strip. rewrite cleaned_lstrip.
  apply ends_clean_rstrip, cleaned_ends_clean.
Qed.

Lemma cleaned_idempotent (value : string) :
  cleaned_of (cleaned_of value) = cleaned_of value.
Proof.
  unfold cleaned_of at 1. rewrite cleaned_strip.
  apply no_space_replace, cleaned_no_space.
Qed.

Lemma lower_char_n (c : ascii) :
  Str.lower_char c = "n"%char <-> c = "n"%char \/ c = "N"%char.
Proof.
  destruct c as [[] [] [] [] [] [] [] []]; vm_compute;
    (split; [intros H; try discriminate H; auto
            |intros [H|H]; try discriminate H; reflexivity]).
Qed.

Lemma lower_char_a (c : ascii) :
  Str.lower_char c = "a"%char <-> c = "a"%char \/ c = "A"%char.
Proof.
  destruct c as [[] [] [] [] [] [] [] []]; vm_compute;
    (split; [intros H; try discriminate H; auto
            |intros [H|H]; try discriminate H; reflexivity]).
Qed.

(** X1: cleaning a value (line 34) is idempotent: the cleaned text holds no
    space, has no white space at either end, and cleaning it again gives
    it back. *)
Theorem cleaning_is_idempotent (value : string) :
  cleaned_of (cleaned_of value) = cleaned_of value
  /\ no_space (cleaned_of value) = true
  /\ Str.strip (cleaned_of value) = cleaned_of value.
Proof.
  split; [apply cleaned_idempotent|].
  split; [apply cleaned_no_space|apply cleaned_strip].
Qed.

(** X3: the test of line 36 holds for exactly nine cleaned texts: the empty
    one and the eight spellings of "nan" in upper and lower case. *)
Theorem no_data_is_empty_or_a_spelling_of_nan (cleaned : string) :
  no_data cleaned = true
  <-> In cleaned [ ""; "nan"; "naN"; "nAn"; "nAN";
                   "Nan"; "NaN"; "NAn"; "NAN" ].
Proof.
  split.
  - intros H. apply no_data_spec in H. destruct H as [->|H];
      [now left|].
    destruct cleaned as [|c1 [|c2 [|c3 [|c4 s]]]]; simpl in H;
      try discriminate H.
    injection H as H1 H2 H3.
    apply lower_char_n in H1, H3. apply lower_char_a in H2.
    destruct H1 as [->| ->], H2 as [->| ->], H3 as [->| ->];
      simpl; tauto.
  - simpl. intros H.
    repeat (destruct H as [<-|H]; [reflexivity|]). destruct H.
Qed.

(** ** Further facts: the columns kept *)

Lemma find_kept (row : Series raw) (c : string) (drops : bool) :
  c <> "Label Number 5" ->
  find (if drops
        then filter (fun kv => negb (fst kv =? "Label Number 5"))
               (map (fun kv => (fst kv, str_of_raw (snd kv))) row)
        else map (fun kv => (fst kv, str_of_raw (snd kv))) row) c
  = option_map str_of_raw (find row c).
Proof.
  intros Hc. destruct drops.
  - rewrite find_drop by exact Hc. apply find_fillna.
  - apply find_fillna.
Qed.

(** Two rows with the same expected fields are kept as the same row. *)
Lemma kept_row_eq (table table' : DataFrame raw) (row row' : Series raw) :
  spec_selection table = spec_selection table' ->
  (forall c, In c expected_cols -> find row c = find row' c) ->
  kept_row table row = kept_row table' row'.
Proof.
  intros S H. unfold kept_row. rewrite <- S.
  apply flat_map_ext_In. intros c Hc.
  apply selection_expected in Hc.
  pose proof (expected_not_label5 c Hc) as Hne.
  now rewrite !find_kept, (H c Hc) by exact Hne.
Qed.

Lemma find_some_of_In {A} (row : Series A) (key : string) :
  In key (map fst row) -> exists v, find row key = Some v.
Proof.
  induction row as [|[k v] row IH]; simpl; [tauto|].
  intros H. destruct (k =? key) eqn:E; [now exists v|].
  apply IH. destruct H as [H|H]; [|exact H].
  apply String.eqb_neq in E. congruence.
Qed.

Lemma find_perm {A} (row row' : Series A) (key : string) :
  NoDup (map fst row) -> Permutation row row' ->
  find row key = find row' key.
Proof.
  intros N P. induction P as [|[k v] l l' P IH|[k1 v1] [k2 v2] l|l l' l'' P1 IH1 P2 IH2].
  - reflexivity.
  - simpl. simpl in N. inversion N as [|? ? _ N']; subst.
    now rewrite (IH N').
  - simpl. simpl in N. inversion N as [|? ? Hin _]; subst.
    destruct (k1 =? key) eqn:E1, (k2 =? key) eqn:E2; try reflexivity.
    apply String.eqb_eq in E1, E2. subst. exfalso. apply Hin. now left.
  - rewrite (IH1 N). apply IH2.
    apply (Permutation_NoDup (Permutation_map fst P1) N).
Qed.

Lemma expected_cols_NoDup : NoDup expected_cols.
Proof.
  unfold expected_cols.
  repeat (apply NoDup_cons;
          [simpl; intros H;
           repeat (destruct H as [H|H]; [discriminate H|]); exact H|]).
  apply NoDup_nil.
Qed.

Lemma kept_row_keys (table : DataFrame raw) (row : Series raw) :
  map fst row = columns table ->
  map fst (kept_row table row) = spec_selection table.
Proof.
  intros Hrow. unfold kept_row. cbv zeta.
  set (dropped := if contains (columns table) "Label Number 5"
                  then _ else _).
  assert (H : forall c, In c (spec_selection table) ->
              exists v, find dropped c = Some v).
  { intros c Hc. apply spec_selection_In in Hc. destruct Hc as [He Hin].
    subst dropped. rewrite find_kept by now apply expected_not_label5.
    rewrite <- Hrow in Hin.
    destruct (find_some_of_In row c Hin) as [v ->]. now eexists. }
  clearbody dropped.
  induction (spec_selection table) as [|c sel IH]; [reflexivity|].
  cbn [flat_map]. destruct (H c (or_introl eq_refl)) as [v ->].
  cbn [app map fst]. f_equal.
  apply IH. intros c' Hc'. apply H. now right.
Qed.

(** X6: the selection of columns (lines 73-90) fails with the schema error
    only, and only when no expected column is present: [df[available_cols]]
    never raises.  Otherwise the table kept has exactly the selected
    columns, each once, one row for each row read, and every row has one
    cell per column when that holds for the table read. *)
Theorem select_columns_keeps_a_table (table : DataFrame raw) :
  match select_columns table with
  | inl exc =>
      exc = ValueError "No expected columns found in Excel file."
      /\ ~ has_expected table
  | inr (available_cols, df) =>
      has_expected table
      /\ available_cols = spec_selection table
      /\ columns df = available_cols
      /\ NoDup available_cols
      /\ length (rows df) = length (rows table)
      /\ (rectangular table -> rectangular df)
  end.
Proof.
  rewrite select_columns_eq.
  destruct (spec_selection table) as [|c0 sel] eqn:E.
  - split; [reflexivity|]. intros H.
    apply has_expected_selection in H. congruence.
  - rewrite <- E. split.
    { apply has_expected_selection. congruence. }
    split; [reflexivity|]. split; [reflexivity|]. split.
    { unfold spec_selection. apply NoDup_filter.
      exact expected_cols_NoDup. }
    split; [simpl; now rewrite length_map|].
    unfold rectangular. simpl. rewrite !Forall_forall.
    intros Hrect r Hr. apply in_map_iff in Hr.
    destruct Hr as [row [<- Hrow]]. apply kept_row_keys.
    now apply Hrect.
Qed.

(** ** Further facts: counting cells and events *)

Lemma count_app {A} (p : A -> bool) (l1 l2 : list A) :
  count p (l1 ++ l2) = count p l1 + count p l2.
Proof. unfold count. now rewrite filter_app, length_app. Qed.

Lemma count_texts (l : list string) : count is_picture (map Text l) = 0.
Proof. unfold count. induction l as [|s l IH]; simpl; auto. Qed.

Lemma count_text_cells {A} (f : A -> string) (l : list A) :
  count is_picture (map (fun a => Text (f a)) l) = 0.
Proof. unfold count. induction l as [|a l IH]; simpl; auto. Qed.

Lemma count_pictures_sum (l : list cell) :
  list_sum (map (fun c => if is_picture c then 1 else 0) l)
  = count is_picture l.
Proof.
  unfold count. induction l as [|c l IH]; simpl; [reflexivity|].
  destruct (is_picture c); simpl; lia.
Qed.

Lemma count_concat {A} (p : A -> bool) (ls : list (list A)) :
  list_sum (map (count p) ls) = count p (concat ls).
Proof.
  induction ls as [|l ls IH]; simpl; [reflexivity|].
  now rewrite count_app, IH.
Qed.

Lemma for_each_count {A B} (f : A -> W B) (weight : B -> nat)
    (p q : event -> bool) (xs : list A) :
  (forall x, In x xs ->
     count p (snd (f x)) = weight (fst (f x)) + count q (snd (f x))) ->
  count p (snd (for_each f xs))
  = list_sum (map weight (fst (for_each f xs)))
    + count q (snd (for_each f xs)).
Proof.
  rewrite for_each_fst, for_each_snd.
  induction xs as [|x xs IH]; intros H; simpl; [reflexivity|].
  rewrite !count_app, (H x (or_introl eq_refl)), IH; [lia|].
  intros y Hy. apply H. now right.
Qed.

Lemma for_each_count_le {A B} (f : A -> W B) (p : event -> bool) (k : nat)
    (xs : list A) :
  (forall x, In x xs -> count p (snd (f x)) <= k) ->
  count p (snd (for_each f xs)) <= k * length xs.
Proof.
  rewrite for_each_snd.
  induction xs as [|x xs IH]; intros H; simpl.
  - unfold count. simpl. lia.
  - rewrite count_app, Nat.mul_succ_r.
    pose proof (H x (or_introl eq_refl)).
    assert (count p (flat_map (fun x => snd (f x)) xs) <= k * length xs).
    { apply IH. intros y Hy. apply H. now right. }
    lia.
Qed.

Lemma firstn_length_app {A} (l1 l2 : list A) :
  firstn (length l1) (l1 ++ l2) = l1.
Proof. induction l1 as [|a l1 IH]; simpl; [reflexivity|now rewrite IH]. Qed.

Lemma skipn_length_app {A} (l1 l2 : list A) :
  skipn (length l1) (l1 ++ l2) = l2.
Proof. induction l1 as [|a l1 IH]; simpl; [reflexivity|exact IH]. Qed.

(** ** Further facts: the table built, for any Code128 writer *)

Section Table.

Variable code128 : string -> exn + list Byte.byte.

(** The three ways a call of the encoder ends. *)
Lemma generate_cases (value : string) (width height : Z) :
  (no_data (cleaned_of value) = true
   /\ generate_code128_barcode code128 value width height = (Empty, []))
  \/ (no_data (cleaned_of value) = false
      /\ exists png,
           generate_code128_barcode code128 value width height
           = (Picture (mkImage png width height),
              [Code128 (cleaned_of value)]))
  \/ (no_data (cleaned_of value) = false
      /\ exists exc,
           generate_code128_barcode code128 value width height
           = (Empty, [Code128 (cleaned_of value);
                      Print (Warning value exc)])).
Proof.
  unfold generate_code128_barcode.
  destruct (no_data (cleaned_of value)); [now left|right].
  destruct (code128 (cleaned_of value)) as [exc|png].
  - right. split; [reflexivity|]. now exists exc.
  - left. split; [reflexivity|]. now exists png.
Qed.

Lemma row_cells_snd (available_cols : list string) (row : Series string) :
  snd (row_cells code128 available_cols row)
  = flat_map (fun col =>
                snd (generate_code128_barcode code128 (get row col "") 80 25))
      [ "Label Number 1"; "Label Number 2";
        "Label Number 3"; "Label Number 4" ].
Proof.
  unfold row_cells. rewrite bind_snd. unfold ret. cbn [snd].
  rewrite app_nil_r, for_each_snd. reflexivity.
Qed.

Lemma table_data_fst (available_cols : list string) (df : DataFrame string) :
  fst (table_data code128 available_cols df)
  = map Text (available_cols ++ barcode_headers)
    :: map (fun row => fst (row_cells code128 available_cols row)) (rows df).
Proof.
  unfold table_data. rewrite bind_fst. unfold ret. cbn [fst].
  now rewrite for_each_fst.
Qed.

Lemma table_data_snd (available_cols : list string) (df : DataFrame string) :
  snd (table_data code128 available_cols df)
  = flat_map (fun row => snd (row_cells code128 available_cols row))
      (rows df).
Proof.
  unfold table_data. rewrite bind_snd. unfold ret. cbn [snd].
  now rewrite app_nil_r, for_each_snd.
Qed.

(** What a table built is made of. *)
Lemma assemble_inv (table : DataFrame raw) (cells : list (list cell))
    (events : list event) :
  assemble code128 table = inr (cells, events) ->
  has_expected table
  /\ (cells, events)
     = table_data code128 (spec_selection table)
         (mkFrame (spec_selection table)
                  (map (kept_row table) (rows table))).
Proof.
  unfold assemble. rewrite select_columns_eq.
  destruct (spec_selection table) as [|c0 sel] eqn:E; [discriminate|].
  rewrite <- E. intros H. injection H as H. split; [|now rewrite H].
  apply has_expected_selection. congruence.
Qed.

Lemma generate_events (value : string) (width height : Z) (e : event) :
  In e (snd (generate_code128_barcode code128 value width height)) ->
  no_data (cleaned_of value) = false
  /\ (e = Code128 (cleaned_of value)
      \/ exists exc, e = Print (Warning value exc)).
Proof.
  destruct (generate_cases value width height)
    as [[_ ->]|[[N [png ->]]|[N [exc ->]]]]; simpl; intros H.
  - destruct H.
  - destruct H as [<-|[]]. split; [exact N|now left].
  - destruct H as [<-|[<-|[]]]; (split; [exact N|]);
      [now left|right; now exists exc].
Qed.

(** Every event of a table built comes from a call of the encoder on a
    cell of a kept row. *)
Lemma assemble_events (table : DataFrame raw) (cells : list (list cell))
    (events : list event) (e : event) :
  assemble code128 table = inr (cells, events) ->
  In e events ->
  exists value,
    no_data (cleaned_of value) = false
    /\ (e = Code128 (cleaned_of value)
        \/ exists exc, e = Print (Warning value exc)).
Proof.
  intros A He. apply assemble_inv in A. destruct A as [_ A].
  apply (f_equal snd) in A. cbn [snd] in A.
  rewrite table_data_snd in A. subst events.
  apply in_flat_map in He. destruct He as [row [_ He]].
  rewrite row_cells_snd in He.
  apply in_flat_map in He. destruct He as [col [_ He]].
  exists (get row col ""). now apply generate_events in He.
Qed.

Lemma generate_count (value : string) (width height : Z) :
  count is_code128
    (snd (generate_code128_barcode code128 value width height))
  = (if is_picture
          (fst (generate_code128_barcode code128 value width height))
     then 1 else 0)
    + count is_warning
        (snd (generate_code128_barcode code128 value width height))
  /\ count is_code128
       (snd (generate_code128_barcode code128 value width height)) <= 1.
Proof.
  destruct (generate_cases value width height)
    as [[_ ->]|[[_ [png ->]]|[_ [exc ->]]]]; cbn; lia.
Qed.

Lemma generate_barcode_cell (value : string) :
  barcode_cell (fst (generate_code128_barcode code128 value 80 25)).
Proof.
  destruct (generate_cases value 80 25)
    as [[_ ->]|[[_ [png ->]]|[_ [exc ->]]]]; simpl; auto.
Qed.

Lemma row_cells_count (available_cols : list string) (row : Series string) :
  count is_code128 (snd (row_cells code128 available_cols row))
  = count is_picture (fst (row_cells code128 available_cols row))
    + count is_warning (snd (row_cells code128 available_cols row))
  /\ count is_code128 (snd (row_cells code128 available_cols row)) <= 4.
Proof.
  unfold row_cells. rewrite bind_fst, bind_snd. unfold ret. cbn [fst snd].
  rewrite app_nil_r, count_app, count_text_cells.
  split.
  - rewrite (for_each_count _ (fun c => if is_picture c then 1 else 0)
               is_code128 is_warning).
    + rewrite count_pictures_sum. lia.
    + intros i _. apply generate_count.
  - change 4 with (1 * length (range 1 5)).
    apply for_each_count_le. intros i _. apply generate_count.
Qed.

(** X2: the Code128 writer is only ever called on text that is not empty,
    holds no space and does not read "nan" in any letter case: so it is
    for every writer call made while a table is built. *)
Theorem writer_input_is_clean (table : DataFrame raw)
    (cells : list (list cell)) (events : list event) (data : string) :
  assemble code128 table = inr (cells, events) ->
  In (Code128 data) events ->
  data <> "" /\ no_space data = true /\ Str.lower data <> "nan"
  /\ Str.strip data = data.
Proof.
  intros A He.
  destruct (assemble_events table cells events _ A He) as [value [N H]].
  assert (E : data = cleaned_of value).
  { destruct H as [H|[exc H]]; [now injection H|discriminate H]. }
  subst data.
  assert (N' : ~ (cleaned_of value = ""
                  \/ Str.lower (cleaned_of value) = "nan")).
  { rewrite <- no_data_spec. now rewrite N. }
  split; [tauto|]. split; [apply cleaned_no_space|].
  split; [tauto|apply cleaned_strip].
Qed.

(** X4: in a table built, the header row holds text only; every data row
    holds text in its first cells, one per selected column, and then
    exactly four barcode cells, each the empty placeholder or an image of
    width 80 and height 25. *)
Theorem pictures_only_in_last_four_cells (table : DataFrame raw)
    (cells : list (list cell)) (events : list event) :
  assemble code128 table = inr (cells, events) ->
  exists header body,
    cells = header :: body
    /\ Forall (fun c => is_picture c = false) header
    /\ Forall (fun row =>
                 let n := length (spec_selection table) in
                 Forall (fun c => is_picture c = false) (firstn n row)
                 /\ Forall barcode_cell (skipn n row)
                 /\ length (skipn n row) = 4)
              body.
Proof.
  intros A. apply assemble_inv in A. destruct A as [_ A].
  apply (f_equal fst) in A. cbn [fst] in A. rewrite table_data_fst in A.
  eexists _, _. split; [exact A|]. split.
  - apply Forall_forall. intros c Hc. apply in_map_iff in Hc.
    now destruct Hc as [s [<- _]].
  - apply Forall_forall. intros r Hr. cbn [rows] in Hr.
    apply in_map_iff in Hr. destruct Hr as [row [<- _]].
    rewrite row_cells_fst.
    rewrite <- (length_map (fun col => Text (get row col ""))
                  (spec_selection table)).
    cbv zeta. rewrite firstn_length_app, skipn_length_app.
    split; [|split; [|reflexivity]].
    + apply Forall_forall. intros c Hc. apply in_map_iff in Hc.
      now destruct Hc as [s [<- _]].
    + repeat (apply Forall_cons; [apply generate_barcode_cell|]).
      apply Forall_nil.
Qed.

(** X5: while a table is built, every call of the Code128 writer ends in
    an image in the table or in a warning printed: the calls are as many
    as the images and the warnings together, and at most four for each
    row read. *)
Theorem writer_calls_are_images_plus_warnings (table : DataFrame raw)
    (cells : list (list cell)) (events : list event) :
  assemble code128 table = inr (cells, events) ->
  count is_code128 events
  = count is_picture (concat cells) + count is_warning events
  /\ count is_code128 events <= 4 * length (rows table).
Proof.
  intros A. apply assemble_inv in A. destruct A as [_ A].
  pose proof (f_equal fst A) as Hc. pose proof (f_equal snd A) as He.
  cbn [fst snd] in Hc, He. subst cells events.
  unfold table_data. rewrite bind_fst, bind_snd. unfold ret.
  cbn [fst snd rows]. rewrite app_nil_r.
  cbn [concat]. rewrite count_app, count_texts. split.
  - rewrite (for_each_count _ (count is_picture) is_code128 is_warning).
    + now rewrite count_concat.
    + intros row _. apply row_cells_count.
  - rewrite <- (length_map (kept_row table) (rows table)).
    apply for_each_count_le. intros row _. apply row_cells_count.
Qed.

Lemma kept_rows_perm (table table' : DataFrame raw) :
  rectangular table -> NoDup (columns table) ->
  spec_selection table = spec_selection table' ->
  Forall2 (@Permutation _) (rows table) (rows table') ->
  map (kept_row table) (rows table) = map (kept_row table') (rows table').
Proof.
  unfold rectangular. intros Hrect Hnd S F.
  induction F as [|row row' l l' P F IH]; [reflexivity|].
  inversion Hrect as [|? ? Hrow Hrect']; subst. simpl. f_equal.
  - apply kept_row_eq; [exact S|]. intros c _.
    apply find_perm; [now rewrite Hrow|exact P].
  - now apply IH.
Qed.

(** X8: the order of the columns in the spreadsheet does not matter to
    any part of the table built: two tables whose columns, and whose rows
    one by one, are permutations of each other give the same table and the
    same events. *)
Theorem column_order_is_irrelevant (table table' : DataFrame raw) :
  rectangular table -> NoDup (columns table) ->
  Permutation (columns table) (columns table') ->
  Forall2 (@Permutation _) (rows table) (rows table') ->
  assemble code128 table' = assemble code128 table.
Proof.
  intros Hrect Hnd P F. unfold assemble. rewrite !select_columns_eq.
  pose proof (selection_perm _ _ P) as S. rewrite S.
  now rewrite (kept_rows_perm table table' Hrect Hnd (eq_sym S) F).
Qed.

(** X9: a column whose name is not one of the seven expected names is
    ignored: removing it from the table read changes neither the table
    built nor the events, nor whether the schema error is raised. *)
Theorem unexpected_column_is_ignored (table : DataFrame raw)
    (name : string) :
  ~ In name expected_cols ->
  assemble code128 (drop name table) = assemble code128 table.
Proof.
  intros Hname.
  assert (S : spec_selection (drop name table) = spec_selection table).
  { unfold spec_selection. apply filter_ext_in. intros c Hc. simpl.
    apply contains_drop. intros ->. exact (Hname Hc). }
  assert (K : map (kept_row (drop name table)) (rows (drop name table))
              = map (kept_row table) (rows table)).
  { simpl rows. rewrite map_map.
    apply map_ext. intros row. apply kept_row_eq; [exact S|].
    intros c Hc. apply find_drop. intros ->. exact (Hname Hc). }
  unfold assemble. now rewrite !select_columns_eq, S, K.
Qed.

(** X11: the events of a table built are those of the encoder calls in
    order: row after row as read, and within a row "Label Number 1" to
    "Label Number 4"; warnings are printed in that order. *)
Theorem events_follow_the_rows (table : DataFrame raw)
    (cells : list (list cell)) (events : list event) :
  rectangular table ->
  assemble code128 table = inr (cells, events) ->
  events
  = flat_map
      (fun row =>
         flat_map
           (fun col =>
              snd (generate_code128_barcode code128
                     (spec_field row col) 80 25))
           [ "Label Number 1"; "Label Number 2";
             "Label Number 3"; "Label Number 4" ])
      (rows table).
Proof.
  intros Hrect A. destruct (assemble_inv _ _ _ A) as [Hexp _].
  rewrite (assemble_spec code128 table Hrect Hexp) in A.
  injection A as A. apply (f_equal snd) in A. cbn [snd] in A.
  subst events. unfold spec_table. rewrite bind_snd. unfold ret.
  cbn [snd]. rewrite app_nil_r, for_each_snd.
  apply flat_map_ext. intros row. unfold spec_row.
  rewrite bind_snd. unfold ret. cbn [snd].
  now rewrite app_nil_r, for_each_snd.
Qed.

End Table.

(** ** Further facts: the whole run and the program entry *)

Section Entry.

Variable code128 : string -> exn + list Byte.byte.
Variable disk : Type.
Variable read_excel : string -> disk -> exn + DataFrame raw.
Variable build : string -> list (list cell) -> disk -> option exn * disk.

Lemma assemble_inl (table : DataFrame raw) (exc : exn) :
  assemble code128 table = inl exc ->
  exc = ValueError "No expected columns found in Excel file."
  /\ ~ has_expected table.
Proof.
  unfold assemble. rewrite select_columns_eq.
  destruct (spec_selection table) as [|c0 sel] eqn:E; [|discriminate].
  intros H. injection H as <-. split; [reflexivity|].
  intros Hexp. apply has_expected_selection in Hexp. congruence.
Qed.

Lemma assemble_never_prints_created (table : DataFrame raw)
    (cells : list (list cell)) (events : list event) (path : string) :
  assemble code128 table = inr (cells, events) ->
  ~ In (Print (Created path)) events.
Proof.
  intros A H.
  destruct (assemble_events code128 table cells events _ A H)
    as [value [_ [E|[exc E]]]]; discriminate E.
Qed.

(** The line of line 128 is printed exactly by a run that returns. *)
Lemma created_iff_returned (input_excel output_pdf : string) (d : disk) :
  In (Print (Created output_pdf))
     (trace (excel_to_barcode_pdf code128 disk read_excel build
               input_excel output_pdf d))
  <-> result (excel_to_barcode_pdf code128 disk read_excel build
                input_excel output_pdf d) = inr tt.
Proof.
  unfold excel_to_barcode_pdf.
  destruct (read_excel input_excel d) as [exc|table]; simpl.
  { split; [tauto|discriminate]. }
  destruct (assemble code128 table) as [exc|[cells events]] eqn:A; simpl.
  { split; [tauto|discriminate]. }
  pose proof (assemble_never_prints_created table cells events output_pdf A).
  destruct (build output_pdf cells d) as [[exc|] d']; simpl.
  - split; [tauto|discriminate].
  - split; [reflexivity|]. intros _. apply in_or_app. right. now left.
Qed.

(** X7: a run of the script ends in one of four ways.  It returns, having
    built the table, built the document and printed the success line
    last.  Or it raises: the source-read error when the reader raised, or
    the schema error when no expected column is present, in both cases
    with nothing printed and the disk as it was; or the exception of the
    document builder, with the encoder's events and no success line. *)
Theorem run_ends_in_four_ways (input_excel output_pdf : string) (d : disk) :
  let o := excel_to_barcode_pdf code128 disk read_excel build
             input_excel output_pdf d in
  match result o with
  | inr _ =>
      exists table cells events,
        read_excel input_excel d = inr table
        /\ assemble code128 table = inr (cells, events)
        /\ build output_pdf cells d = (None, final o)
        /\ trace o = events ++ [Print (Created output_pdf)]
  | inl e =>
      ~ In (Print (Created output_pdf)) (trace o)
      /\ ((exists exc,
              read_excel input_excel d = inl exc
              /\ e = FileNotFoundError
                       ("Unable to read Excel file '" ++ input_excel
                        ++ "': " ++ str_exn exc)%string
              /\ trace o = [] /\ final o = d)
          \/ (exists table,
                 read_excel input_excel d = inr table
                 /\ ~ has_expected table
                 /\ e = ValueError "No expected columns found in Excel file."
                 /\ trace o = [] /\ final o = d)
          \/ (exists table cells events,
                 read_excel input_excel d = inr table
                 /\ assemble code128 table = inr (cells, events)
                 /\ build output_pdf cells d = (Some e, final o)
                 /\ trace o = events))
  end.
Proof.
  cbv zeta.
  pose proof (created_iff_returned input_excel output_pdf d) as C.
  unfold excel_to_barcode_pdf in *.
  destruct (read_excel input_excel d) as [exc|table] eqn:R; simpl in *.
  { split; [tauto|]. left. now exists exc. }
  destruct (assemble code128 table) as [exc|[cells events]] eqn:A;
    simpl in *.
  { split; [tauto|]. right. left. exists table.
    destruct (assemble_inl table exc A) as [-> N]. tauto. }
  destruct (build output_pdf cells d) as [[exc|] d'] eqn:B; simpl in *.
  - split; [intros H; apply C in H; discriminate H|].
    right. right. now exists table, cells, events.
  - now exists table, cells, events.
Qed.

(** X10: a spreadsheet with an expected column and no data row is no
    error: the table built is the header row alone, the encoder is never
    called, and the run goes on to build the document from it. *)
Theorem table_without_rows_gives_header_only
    (input_excel output_pdf : string) (d : disk) (table : DataFrame raw) :
  read_excel input_excel d = inr table ->
  rows table = [] ->
  has_expected table ->
  assemble code128 table = inr ([map Text (spec_header table)], [])
  /\ excel_to_barcode_pdf code128 disk read_excel build
       input_excel output_pdf d
     = match build output_pdf [map Text (spec_header table)] d with
       | (Some exc, d') => mkOutcome (inl exc) [] d'
       | (None, d') => mkOutcome (inr tt) [Print (Created output_pdf)] d'
       end.
Proof.
  intros R Hrows Hexp.
  assert (A : assemble code128 table
              = inr ([map Text (spec_header table)], [])).
  { destruct (assemble_shape code128 table Hexp) as [body [ev [A [L _]]]].
    pose proof (assemble_inv code128 table _ _ A) as [_ I].
    apply (f_equal snd) in I. cbn [snd] in I.
    rewrite table_data_snd in I. cbn [rows] in I.
    rewrite Hrows in I, L. simpl in I, L.
    destruct body; [|discriminate L]. now rewrite A, I. }
  split; [exact A|].
  unfold excel_to_barcode_pdf. now rewrite R, A.
Qed.

(** [os.path.exists(path)] *)
Variable path_exists : string -> disk -> bool.

(** X12: the program entry (lines 131-139) never raises for a missing
    input file: it prints the not-found line alone, returns, and leaves
    the disk as it was.  When the file exists it does what the script
    does on "path/to/input_labels.xlsx" and "output_labels.pdf".  It
    prints the success line exactly when the file exists and the script
    returns. *)
Theorem main_reports_missing_input (d : disk) :
  let input_excel := "path/to/input_labels.xlsx" in
  let output_pdf := "output_labels.pdf" in
  let o := excel_to_barcode_pdf code128 disk read_excel build
             input_excel output_pdf d in
  let '(r, lines, d') :=
    main code128 disk read_excel build path_exists d in
  (path_exists input_excel d = false ->
   r = inr tt /\ lines = [NotFound input_excel] /\ d' = d)
  /\ (path_exists input_excel d = true ->
      r = result o /\ lines = map Script (trace o) /\ d' = final o)
  /\ (forall e, r = inl e -> path_exists input_excel d = true)
  /\ (In (Script (Print (Created output_pdf))) lines
      <-> path_exists input_excel d = true /\ result o = inr tt).
Proof.
  cbv zeta. unfold main.
  pose proof (created_iff_returned "path/to/input_labels.xlsx"
                "output_labels.pdf" d) as C.
  destruct (path_exists "path/to/input_labels.xlsx" d); cbn [negb].
  - split; [discriminate|]. split; [tauto|]. split; [tauto|].
    rewrite <- C. split.
    + intros H. apply in_map_iff in H. destruct H as [e [E H]].
      injection E as ->. tauto.
    + intros [_ H]. now apply (in_map Script) in H.
  - split; [tauto|]. split; [discriminate|]. split; [discriminate|].
    split; [|intros [H _]; discriminate H].
    intros [H|[]]. discriminate H.
Qed.

End Entry.

(** ** The further facts on sample tables *)

Lemma labels_frame_built :
  assemble code128_ok labels_frame
  = inr (fst (spec_table code128_ok labels_frame), [Code128 "AB123"]).
Proof. reflexivity. Defined.

Lemma writer_input_is_clean_witness :
  In (Code128 "AB123") [Code128 "AB123"]
  /\ "AB123" <> "" /\ no_space "AB123" = true
  /\ Str.lower "AB123" <> "nan" /\ Str.strip "AB123" = "AB123".
Proof.
  assert (H : In (Code128 "AB123") [Code128 "AB123"]) by (now left).
  split; [exact H|].
  exact (writer_input_is_clean code128_ok labels_frame _ _ "AB123"
           labels_frame_built H).
Defined.

Lemma pictures_only_in_last_four_cells_witness :
  exists header body,
    fst (spec_table code128_ok labels_frame) = header :: body
    /\ Forall (fun c => is_picture c = false) header
    /\ Forall (fun row =>
                 let n := length (spec_selection labels_frame) in
                 Forall (fun c => is_picture c = false) (firstn n row)
                 /\ Forall barcode_cell (skipn n row)
                 /\ length (skipn n row) = 4)
              body.
Proof.
  exact (pictures_only_in_last_four_cells code128_ok labels_frame _ _
           labels_frame_built).
Defined.

Lemma writer_calls_are_images_plus_warnings_witness :
  count is_code128 [Code128 "AB123"]
  = count is_picture (concat (fst (spec_table code128_ok labels_frame)))
    + count is_warning [Code128 "AB123"]
  /\ count is_code128 [Code128 "AB123"] <= 4 * length (rows labels_frame).
Proof.
  exact (writer_calls_are_images_plus_warnings code128_ok labels_frame _ _
           labels_frame_built).
Defined.

Lemma labels_frame_columns_NoDup : NoDup (columns labels_frame).
Proof.
  simpl.
  repeat (apply NoDup_cons;
          [simpl; intros H;
           repeat (destruct H as [H|H]; [discriminate H|]); exact H|]).
  apply NoDup_nil.
Defined.

Lemma column_order_is_irrelevant_witness :
  rectangular labels_frame /\ NoDup (columns labels_frame)
  /\ Permutation (columns labels_frame) (columns reordered_frame)
  /\ Forall2 (@Permutation _) (rows labels_frame) (rows reordered_frame)
  /\ assemble code128_ok reordered_frame = assemble code128_ok labels_frame.
Proof.
  assert (P : forall (A : Type) (a b c : A),
             Permutation [a; b; c] [c; a; b]).
  { intros A a b c. apply Permutation_sym.
    exact (Permutation_cons_append [a; b] c). }
  assert (PC : Permutation (columns labels_frame) (columns reordered_frame))
    by apply P.
  assert (PR : Forall2 (@Permutation _) (rows labels_frame)
                 (rows reordered_frame)).
  { repeat (apply Forall2_cons; [apply P|]). apply Forall2_nil. }
  split; [exact labels_frame_rectangular|].
  split; [exact labels_frame_columns_NoDup|].
  split; [exact PC|]. split; [exact PR|].
  exact (column_order_is_irrelevant code128_ok labels_frame reordered_frame
           labels_frame_rectangular labels_frame_columns_NoDup PC PR).
Defined.

Lemma remarks_not_expected : ~ In "Remarks" expected_cols.
Proof.
  simpl. intros H.
  repeat (destruct H as [H|H]; [discriminate H|]). exact H.
Defined.

Lemma unexpected_column_is_ignored_witness :
  ~ In "Remarks" expected_cols
  /\ drop "Remarks" remarks_frame = labels_frame
  /\ assemble code128_ok (drop "Remarks" remarks_frame)
     = assemble code128_ok remarks_frame.
Proof.
  split; [exact remarks_not_expected|]. split; [reflexivity|].
  exact (unexpected_column_is_ignored code128_ok remarks_frame "Remarks"
           remarks_not_expected).
Defined.

Lemma events_follow_the_rows_witness :
  rectangular labels_frame
  /\ [Code128 "AB123"]
     = flat_map
         (fun row =>
            flat_map
              (fun col =>
                 snd (generate_code128_barcode code128_ok
                        (spec_field row col) 80 25))
              [ "Label Number 1"; "Label Number 2";
                "Label Number 3"; "Label Number 4" ])
         (rows labels_frame).
Proof.
  split; [exact labels_frame_rectangular|].
  exact (events_follow_the_rows code128_ok labels_frame _ _
           labels_frame_rectangular labels_frame_built).
Defined.

Lemma empty_frame_has_expected : has_expected empty_frame.
Proof. exists "Applicant No". simpl. tauto. Defined.

Lemma table_without_rows_gives_header_only_witness :
  rows empty_frame = [] /\ has_expected empty_frame
  /\ assemble code128_ok empty_frame
     = inr ([ map Text [ "Applicant No"; "Label Number 2";
                         "Label 1 Barcode"; "Label 2 Barcode";
                         "Label 3 Barcode"; "Label 4 Barcode" ] ], []).
Proof.
  split; [reflexivity|]. split; [exact empty_frame_has_expected|].
  exact (proj1 (table_without_rows_gives_header_only code128_ok files
                  (fun _ _ => inr empty_frame) build_sample
                  "empty.xlsx" "output_labels.pdf" [] empty_frame
                  eq_refl eq_refl empty_frame_has_expected)).
Defined.

(** The program entry where the input file is missing. *)
Example main_missing_input :
  main code128_ok files read_sample build_sample exists_sample []
  = (inr tt, [NotFound "path/to/input_labels.xlsx"], []).
Proof. reflexivity. Qed.
